(** * devassistant/lang.py: the expression and control-flow mini-language

    A shallow embedding of [devassistant/lang.py] together with the
    properties of its six operations: [get_var_name], [evaluate],
    [get_section_from_condition], [parse_for],
    [get_for_control_var_and_eval_expr] and [assign_variable].

    Conventions of the embedding.
    - A Python [str] is a [string]; a character is an [ascii], read as the
      code point of the same number (code points below 256).
    - A Python object is a [value]; the variable environment [kwargs] is a
      finite map from names to values.
    - A Python call either returns or raises: [res A] is [Ok a] or
      [Raise e].
    - The command runner [command.Command('cl_n', ...).run()] is not part of
      this module; it is a parameter of the development, and every command
      line handed to it is recorded in the [machine]. *)

From Stdlib Require Import Ascii String List Bool Arith Lia.
From stdpp Require Import base option gmap strings.

Local Open Scope list_scope.

(** ** Python string primitives *)

Module Py.

(** [str.isspace] on one character, for code points below 256: the ASCII
    white space, the separators 28..31, NEL (133) and NBSP (160). *)
Definition isspace (c : ascii) : bool :=
  let n := nat_of_ascii c in
  ((9 <=? n) && (n <=? 13)) || ((28 <=? n) && (n <=? 32))
  || (n =? 133) || (n =? 160).

(** Membership of a character in the argument of [str.strip(chars)]. *)
Fixpoint char_in (cs : string) (c : ascii) : bool :=
  match cs with
  | EmptyString => false
  | String d cs' => Ascii.eqb c d || char_in cs' c
  end.

(** [str.lstrip]: drop the leading characters that satisfy [p]. *)
Fixpoint lstrip (p : ascii -> bool) (s : string) : string :=
  match s with
  | EmptyString => EmptyString
  | String c s' => if p c then lstrip p s' else s
  end.

(** [str.rstrip]: drop the trailing characters that satisfy [p]. *)
Fixpoint rstrip (p : ascii -> bool) (s : string) : string :=
  match s with
  | EmptyString => EmptyString
  | String c s' =>
      match rstrip p s' with
      | EmptyString => if p c then EmptyString else String c EmptyString
      | r => String c r
      end
  end.

(** [s.strip()] and [s.strip(chars)]. *)
Definition strip_by (p : ascii -> bool) (s : string) : string :=
  rstrip p (lstrip p s).
Definition strip (s : string) : string := strip_by isspace s.
Definition strip_chars (cs : string) (s : string) : string :=
  strip_by (char_in cs) s.

(** [s.startswith(prefix)]. *)
Fixpoint startswith (pre s : string) : bool :=
  match pre with
  | EmptyString => true
  | String a pre' =>
      match s with
      | EmptyString => false
      | String b s' => Ascii.eqb a b && startswith pre' s'
      end
  end.

(** [s[n:]]. *)
Fixpoint slice_from (n : nat) (s : string) : string :=
  match n with
  | O => s
  | S n' => match s with
            | EmptyString => EmptyString
            | String _ s' => slice_from n' s'
            end
  end.

(** [s[:-1]]. *)
Fixpoint drop_last (s : string) : string :=
  match s with
  | EmptyString => EmptyString
  | String c s' => match s' with
                   | EmptyString => EmptyString
                   | _ => String c (drop_last s')
                   end
  end.

(** [s[2:-1]]. *)
Definition slice_2_m1 (s : string) : string := drop_last (slice_from 2 s).

(** [s.count(c)] for a one-character [c]. *)
Fixpoint count (c : ascii) (s : string) : nat :=
  match s with
  | EmptyString => 0
  | String a s' => (if Ascii.eqb a c then 1 else 0) + count c s'
  end.

(** [s.split(c)] for a one-character separator: never the empty list. *)
Fixpoint split_on (c : ascii) (s : string) : list string :=
  match s with
  | EmptyString => [EmptyString]
  | String a s' =>
      if Ascii.eqb a c then EmptyString :: split_on c s'
      else match split_on c s' with
           | h :: t => String a h :: t
           | [] => [String a EmptyString]
           end
  end.

(** [s.split()]: the maximal runs of characters that are not white space. *)
Fixpoint split (s : string) : list string :=
  match s with
  | EmptyString => []
  | String a s' =>
      if isspace a then split s'
      else match s' with
           | EmptyString => [String a EmptyString]
           | String b _ =>
               if isspace b then String a EmptyString :: split s'
               else match split s' with
                    | h :: t => String a h :: t
                    | [] => [String a EmptyString]
                    end
           end
  end.

(** Every character of the text is in the class. *)
Fixpoint all (p : ascii -> bool) (s : string) : bool :=
  match s with
  | EmptyString => true
  | String c s' => p c && all p s'
  end.

Definition first_char (s : string) : option ascii :=
  match s with
  | EmptyString => None
  | String c _ => Some c
  end.

Fixpoint last_char (s : string) : option ascii :=
  match s with
  | EmptyString => None
  | String c s' => match s' with
                   | EmptyString => Some c
                   | _ => last_char s'
                   end
  end.

(** The character, if any, is outside the class. *)
Definition outside (p : ascii -> bool) (o : option ascii) : Prop :=
  match o with
  | Some c => p c = false
  | None => True
  end.

End Py.

(** ** Python objects *)

#[local] Set Warnings "-register-all".

(** The objects that reach this module: [None], booleans, integers, text,
    lists, tuples and dictionaries (in insertion order). *)
Inductive value : Type :=
| VNone
| VBool (b : bool)
| VInt (z : Z)
| VStr (s : string)
| VList (l : list value)
| VTuple (l : list value)
| VDict (d : list (value * value)).

(** The empty text [''], and the two quote characters that
    [get_var_name] strips. *)
Definition empty_str : value := VStr EmptyString.
Definition dquote : ascii := "034"%char.
Definition quote_chars : string := String dquote (String "'"%char EmptyString).

(** Truth value of an object, as [if x:] and [bool(x)] compute it. *)
Definition truthy (v : value) : bool :=
  match v with
  | VNone => false
  | VBool b => b
  | VInt z => negb (Z.eqb z 0)
  | VStr s => negb (String.eqb s EmptyString)
  | VList l | VTuple l => match l with [] => false | _ => true end
  | VDict d => match d with [] => false | _ => true end
  end.

(** [str(type(x))]. *)
Definition type_repr (v : value) : string :=
  match v with
  | VNone => "<class 'NoneType'>"
  | VBool _ => "<class 'bool'>"
  | VInt _ => "<class 'int'>"
  | VStr _ => "<class 'str'>"
  | VList _ => "<class 'list'>"
  | VTuple _ => "<class 'tuple'>"
  | VDict _ => "<class 'dict'>"
  end.

(** The exceptions that can leave this module. *)
Inductive exn : Type :=
| YamlSyntaxError (msg : string)
| AttributeError (msg : string)
| NameError (msg : string)
| ValueError (msg : string).

Inductive res (A : Type) : Type :=
| Ok (a : A)
| Raise (e : exn).
Arguments Ok {A} a.
Arguments Raise {A} e.

Definition is_syntax_error (e : exn) : bool :=
  match e with YamlSyntaxError _ => true | _ => false end.

(** ** get_var_name *)

Definition get_var_name (dolar_variable : string) : res string :=
  let name := Py.strip dolar_variable in
  let name := Py.strip_chars quote_chars name in
  if negb (Py.startswith "$" name) then
    Raise (YamlSyntaxError ("Not a proper variable name: " +:+ dolar_variable))
  else
    let name := Py.slice_from 1 name in
    Ok (Py.strip_chars "{}" name).

(** ** The regular expressions of [re], as far as [parse_for] uses them

    [re.match] is a backtracking matcher: alternatives are tried in priority
    order (a greedy quantifier first takes as much as it can) and the first
    way that lets the rest of the pattern match wins. The matcher below is
    written in continuation-passing style: the continuation receives the
    text just matched, the text that remains and the groups captured so
    far, and answering [None] makes the matcher try its next alternative. *)

Module Re.

Inductive regex : Type :=
| Eps                               (* the empty pattern *)
| Chr (c : ascii)                   (* a literal character *)
| Cls (p : ascii -> bool)           (* a character class: \s, \S, . *)
| Seq (r1 r2 : regex)               (* r1 r2 *)
| Opt (r : regex)                   (* r?, greedy *)
| Star (p : ascii -> bool)          (* p*, greedy, on a character class *)
| Group (i : nat) (r : regex).      (* the capturing group number i *)

(** [p+] on a character class. *)
Definition Plus (p : ascii -> bool) : regex := Seq (Cls p) (Star p).

(** A literal word. *)
Fixpoint Lit (s : string) : regex :=
  match s with
  | EmptyString => Eps
  | String c s' => Seq (Chr c) (Lit s')
  end.

(** The classes [\s], [\S] and [.] (no DOTALL: [.] refuses the newline). *)
Definition space : ascii -> bool := Py.isspace.
Definition nonspace (c : ascii) : bool := negb (Py.isspace c).
Definition dot (c : ascii) : bool := negb (Ascii.eqb c "010"%char).

(** The captured groups; a group that took no part in the match is [None]. *)
Definition groups : Type := nat -> option string.
Definition no_groups : groups := fun _ => None.
Definition set_group (i : nat) (m : string) (g : groups) : groups :=
  fun j => if Nat.eqb j i then Some m else g j.

Section Matcher.
Context {A : Type}.

(** The greedy loop of [p*]: take one more character when it is in the
    class and the rest then matches, otherwise stop here. *)
Fixpoint star_loop (p : ascii -> bool) (s : string)
         (k : string -> string -> option A) : option A :=
  match s with
  | EmptyString => k EmptyString EmptyString
  | String c s' =>
      if p c then
        match star_loop p s' (fun m rest => k (String c m) rest) with
        | Some a => Some a
        | None => k EmptyString s
        end
      else k EmptyString s
  end.

Fixpoint run (r : regex) (s : string) (g : groups)
         (k : string -> string -> groups -> option A) : option A :=
  match r with
  | Eps => k EmptyString s g
  | Chr c =>
      match s with
      | String c' s' =>
          if Ascii.eqb c' c then k (String c' EmptyString) s' g else None
      | EmptyString => None
      end
  | Cls p =>
      match s with
      | String c' s' =>
          if p c' then k (String c' EmptyString) s' g else None
      | EmptyString => None
      end
  | Seq r1 r2 =>
      run r1 s g (fun m1 s1 g1 =>
        run r2 s1 g1 (fun m2 s2 g2 => k (m1 +:+ m2) s2 g2))
  | Opt r1 =>
      match run r1 s g k with
      | Some a => Some a
      | None => k EmptyString s g
      end
  | Star p => star_loop p s (fun m rest => k m rest g)
  | Group i r1 =>
      run r1 s g (fun m s1 g1 => k m s1 (set_group i m g1))
  end.
End Matcher.

(** [regex.match(s)]: anchored at the start, free at the end; the result is
    the match object (here: its groups) or [None]. *)
Definition match_ (r : regex) (s : string) : option groups :=
  run r s no_groups (fun _ _ g => Some g).

(** The texts a pattern can match. *)
Fixpoint lang (r : regex) (m : string) : Prop :=
  match r with
  | Eps => m = EmptyString
  | Chr c => m = String c EmptyString
  | Cls p => exists c, p c = true /\ m = String c EmptyString
  | Seq r1 r2 => exists m1 m2, m = m1 +:+ m2 /\ lang r1 m1 /\ lang r2 m2
  | Opt r1 => m = EmptyString \/ lang r1 m
  | Star p => Py.all p m = true
  | Group _ r1 => lang r1 m
  end.

(** Every group of the pattern captures a text that satisfies [P]. *)
Fixpoint captures (P : nat -> string -> Prop) (r : regex) : Prop :=
  match r with
  | Seq r1 r2 => captures P r1 /\ captures P r2
  | Opt r1 => captures P r1
  | Group i r1 => (forall t, lang r1 t -> P i t) /\ captures P r1
  | _ => True
  end.

(** The groups that take part in every match of the pattern. *)
Fixpoint sets (r : regex) (i : nat) : bool :=
  match r with
  | Seq r1 r2 => sets r1 i || sets r2 i
  | Group j r1 => Nat.eqb i j || sets r1 i
  | _ => false
  end.

Definition groups_in (P : nat -> string -> Prop) (g : groups) : Prop :=
  forall i t, g i = Some t -> P i t.

End Re.

(** ** parse_for *)

(** [\${?\S}?], a control variable of the header. *)
Definition for_var : Re.regex :=
  Re.Seq (Re.Chr "$") (Re.Seq (Re.Opt (Re.Chr "{"))
    (Re.Seq (Re.Cls Re.nonspace) (Re.Opt (Re.Chr "}")))).

(** [\s*,\s+(\${?\S}?)], the optional second control variable. *)
Definition for_second : Re.regex :=
  Re.Seq (Re.Star Re.space) (Re.Seq (Re.Chr ",")
    (Re.Seq (Re.Plus Re.space) (Re.Group 2 for_var))).

(** [\s+in\s+(\S.+)], the keyword and the expression. *)
Definition for_tail : Re.regex :=
  Re.Seq (Re.Plus Re.space) (Re.Seq (Re.Lit "in")
    (Re.Seq (Re.Plus Re.space)
      (Re.Group 3 (Re.Seq (Re.Cls Re.nonspace) (Re.Plus Re.dot))))).

(** [for\s+(\${?\S}?)(?:\s*,\s+(\${?\S}?))?\s+in\s+(\S.+)] *)
Definition for_regex : Re.regex :=
  Re.Seq (Re.Lit "for") (Re.Seq (Re.Plus Re.space)
    (Re.Seq (Re.Group 1 for_var)
      (Re.Seq (Re.Opt for_second) for_tail))).

(** What groups 1 and 2 of the header pattern may hold. *)
Definition var_group (i : nat) (t : string) : Prop :=
  i = 1 \/ i = 2 -> Re.lang for_var t.

(** [x.groups()] where [x] is the result of [regex.match]: [None] has no
    such attribute. *)
Definition groups_of (m : option Re.groups)
  : res (option string * option string * option string) :=
  match m with
  | None => Raise (AttributeError "'NoneType' object has no attribute 'groups'")
  | Some g => Ok (g 1, g 2, g 3)
  end.

(** The text of a group that took part in the match (group 3 of the header
    pattern always does). *)
Definition group_text (o : option string) : string :=
  match o with Some s => s | None => EmptyString end.

(** [get_var_name] on a group: [None] has no [strip]. *)
Definition get_var_name_group (o : option string) : res string :=
  match o with
  | Some s => get_var_name s
  | None => Raise (AttributeError "'NoneType' object has no attribute 'strip'")
  end.

(** Truth value of a group: [None] and the empty text are false. *)
Definition group_truthy (o : option string) : bool :=
  match o with
  | Some s => negb (String.eqb s EmptyString)
  | None => false
  end.

Definition parse_for (control_line : string) : res (list string * string) :=
  let error :=
    "For loop call must be in form 'for $var in expression', got: "
    +:+ control_line in
  match groups_of (Re.match_ for_regex control_line) with
  | Raise e => Raise e
  | Ok (res0, res1, res2) =>
      (* [if not res]: a tuple of three members is never false *)
      if false then Raise (YamlSyntaxError error) else
      match get_var_name_group res0 with
      | Raise e => Raise e
      | Ok v0 =>
          if group_truthy res1 then
            match get_var_name_group res1 with
            | Raise e => Raise e
            | Ok v1 => Ok ([v0; v1], group_text res2)
            end
          else Ok ([v0], group_text res2)
      end
  end.

(** ** The environment and the command runner *)

(** The variable environment [kwargs]: a dictionary keyed by names. *)
Abbreviation env := (gmap string value).

(** What [command.Command('cl_n', line, kwargs).run()] does: it returns the
    output, or raises [exceptions.RunException] carrying an [output]. *)
Inductive run_outcome : Type :=
| Returned (output : value)
| RunException (output : value).

(** The global name [logger] is used by this module but never bound in it
    (the module imports [re], [sys], [command] and [exceptions] only):
    evaluating it raises [NameError]. *)
Definition logger : res unit :=
  Raise (NameError "name 'logger' is not defined").

(** The pair [(key, value)] that [dict.items()] yields. *)
Definition item (kv : value * value) : value := VTuple [kv.1; kv.2].

Section Lang.

(** The outside world of the command runner, and the runner itself. *)
Variable World : Type.
Variable run_command : string -> env -> World -> run_outcome * World.

(** The state a call threads through: the outside world and the command
    lines executed so far, oldest first. *)
Record machine : Type := Machine { world : World; calls : list string }.

Definition cl_n (line : string) (kwargs : env) (m : machine)
  : run_outcome * machine :=
  let '(out, w) := run_command line kwargs (world m) in
  (out, Machine w (calls m ++ [line])).

(** *** evaluate *)

Definition evaluate (expression : value) (kwargs : env) (m : machine)
  : res (bool * value) * machine :=
  match expression with
  | VStr text =>
      let expr := Py.strip text in
      let invert_success := Py.startswith "not " expr in
      let expr := if invert_success then Py.slice_from 4 expr else expr in
      let result (success : bool) (output : value) : res (bool * value) :=
        Ok (if negb invert_success then success else negb success, output) in
      if Py.startswith "$(" expr then
        let '(out, m') := cl_n (Py.slice_2_m1 expr) kwargs m in
        match out with
        | Returned output => (result true output, m')
        | RunException output => (result false output, m')
        end
      else if Py.startswith "$" expr
              || Py.startswith (String dquote "$") expr then
        match get_var_name expr with
        | Raise e => (Raise e, m)
        | Ok var_name =>
            match kwargs !! var_name with
            | Some v =>
                if truthy v then (result true v, m)
                else (result false empty_str, m)
            | None => (result false empty_str, m)
            end
        end
      else if Py.startswith "defined " expr then
        match get_var_name (Py.slice_from 8 expr) with
        | Raise e => (Raise e, m)
        | Ok varname =>
            (result (bool_decide (is_Some (kwargs !! varname)))
                    (default empty_str (kwargs !! varname)), m)
        end
      else (Raise (YamlSyntaxError ("Not a valid expression: " +:+ text)), m)
  | _ => (Ok (truthy expression, expression), m)
  end.

(** *** get_for_control_var_and_eval_expr *)

(** The handler [except YamlSyntaxError as e: logger...(e); raise e]. *)
Definition log_and_reraise {A : Type} (e : exn) : res A :=
  match logger with
  | Raise e' => Raise e'
  | Ok _ => Raise e
  end.

Definition get_for_control_var_and_eval_expr
           (comm_type : string) (kwargs : env) (m : machine)
  : res (list string * list value) * machine :=
  match parse_for comm_type with
  | Raise (YamlSyntaxError msg) => (log_and_reraise (YamlSyntaxError msg), m)
  | Raise e => (Raise e, m)
  | Ok (control_vars, expression) =>
      match evaluate (VStr expression) kwargs m with
      | (Raise (YamlSyntaxError msg), m') =>
          (log_and_reraise (YamlSyntaxError msg), m')
      | (Raise e, m') => (Raise e, m')
      | (Ok (_, eval_expression), m') =>
          if length control_vars =? 2 then
            match eval_expression with
            | VDict d =>
                (Ok (control_vars, map item d), m')
            | _ =>
                (Raise (YamlSyntaxError
                          ("Can't expand " +:+ type_repr eval_expression
                           +:+ " to two control variables.")), m')
            end
          else
            match eval_expression with
            | VStr text => (Ok (control_vars, map VStr (Py.split text)), m')
            | _ => (Ok (control_vars, []), m')
            end
      end
  end.

(** *** get_section_from_condition *)

(** A section is a pair: its header text and its body. *)
Definition get_section_from_condition {Body : Type}
           (if_section : string * Body)
           (else_section : option (string * Body))
           (kwargs : env) (m : machine)
  : res (nat * bool * option Body) * machine :=
  let skip :=
    match else_section with
    | Some (keyword, _) => String.eqb keyword "else"
    | None => false
    end in
  match evaluate (VStr (Py.strip (Py.slice_from 2 if_section.1))) kwargs m with
  | (Raise e, m') => (Raise e, m')
  | (Ok (logical, _), m') =>
      if logical then (Ok (0, skip, Some if_section.2), m')
      else if skip then
        (Ok (1, skip, match else_section with
                      | Some (_, body) => Some body
                      | None => None
                      end), m')
      else (Ok (1, skip, None), m')
  end.

(** *** assign_variable *)

(** The outcome of the call, the environment it leaves behind, and the
    machine. *)
Definition assign_variable (variable : string) (comm : value)
           (kwargs : env) (m : machine)
  : res unit * env * machine :=
  let comma_count := Py.count "," variable in
  if 1 <? comma_count then
    (Raise (YamlSyntaxError "Max two variables allowed on left side."),
     kwargs, m)
  else
    match evaluate comm kwargs m with
    | (Raise e, m') => (Raise e, kwargs, m')
    | (Ok (res1, res2), m') =>
        if comma_count =? 1 then
          match map get_var_name (Py.split_on "," variable) with
          | [Ok var1; Ok var2] =>
              (Ok tt, <[var2 := res2]> (<[var1 := VBool res1]> kwargs), m')
          | [Raise e; _] | [Ok _; Raise e] => (Raise e, kwargs, m')
          | [] | [_] =>
              (Raise (ValueError "not enough values to unpack"), kwargs, m')
          | _ =>
              (Raise (ValueError "too many values to unpack"), kwargs, m')
          end
        else
          match get_var_name variable with
          | Raise e => (Raise e, kwargs, m')
          | Ok var2 => (Ok tt, <[var2 := res2]> kwargs, m')
          end
    end.

End Lang.

Arguments Machine {World} world calls.
Arguments world {World} m.
Arguments calls {World} m.

(** A runner for the examples: [echo] prints its arguments, [false] fails
    with no output, anything else prints nothing. The world counts the
    commands run. *)
Definition stub_run (line : string) (kwargs : env) (w : nat)
  : run_outcome * nat :=
  if Py.startswith "echo " line then (Returned (VStr (Py.slice_from 5 line)), S w)
  else if String.eqb line "false" then (RunException empty_str, S w)
  else (Returned empty_str, S w).

Definition m0 : machine nat := Machine 0 [].


(** The two character sets that [get_var_name] strips. *)
Definition is_quote : ascii -> bool := Py.char_in quote_chars.
Definition is_brace : ascii -> bool := Py.char_in "{}".



(** A control variable as a header writes it: [$v] or [${v}]. *)
Definition var_token (braced : bool) (v : ascii) : string :=
  if braced then String "$" (String "{" (String v "}"))
  else String "$" (String v EmptyString).

(** A character that none of the strippers of [get_var_name] touches. *)
Definition plain_char (c : ascii) : bool :=
  negb (Py.isspace c) && negb (is_quote c) && negb (is_brace c).

(** What [evaluate] reports for a variable, given its binding if any. *)
Definition var_result (o : option value) : bool * value :=
  match o with
  | Some v => if truthy v then (true, v) else (false, empty_str)
  | None => (false, empty_str)
  end.

(** Environments of the examples. *)
Definition env_foo : env := <["foo" := VStr "bar baz"]> ∅.
Definition env_a : env := <["a" := VStr "x"]> ∅.

(** Whether the command returned, and what it printed either way. *)
Definition run_ok (o : run_outcome) : bool :=
  match o with Returned _ => true | RunException _ => false end.
Definition run_output (o : run_outcome) : value :=
  match o with Returned v | RunException v => v end.

(** Between two machines at most one command was run. *)
Definition at_most_one {World : Type} (m m' : machine World) : Prop :=
  m' = m \/ exists line, calls m' = calls m ++ [line].

(** What the three groups of the header pattern may hold. *)
Definition header_group (i : nat) (t : string) : Prop :=
  match i with
  | 1 | 2 => Re.lang for_var t
  | 3 => Re.lang (Re.Seq (Re.Cls Re.nonspace) (Re.Plus Re.dot)) t
  | _ => True
  end.

(** More environments of the examples. *)
Definition env_e : env := <["e" := empty_str]> ∅.
Definition env_d : env := <["d" := VDict [(VStr "k", VStr "v")]]> ∅.

(** * Properties *)

(** ** Facts about the string primitives *)

Module PyFacts.
Import Py.

Lemma app_cons (c : ascii) (s t : string) :
  String c s +:+ t = String c (s +:+ t).
Proof. reflexivity. Qed.

Lemma app_nil_l (t : string) : EmptyString +:+ t = t.
Proof. reflexivity. Qed.

Lemma app_nil_r (s : string) : s +:+ EmptyString = s.
Proof. induction s as [|c s IH]; [reflexivity|]. now rewrite app_cons, IH. Qed.

Ltac norm_app :=
  repeat (rewrite app_cons || rewrite app_nil_l || rewrite app_nil_r).

Lemma app_assoc (s t u : string) : (s +:+ t) +:+ u = s +:+ (t +:+ u).
Proof.
  induction s as [|c s IH]; [reflexivity|]. now rewrite !app_cons, IH.
Qed.

Lemma lstrip_all p w s : all p w = true -> lstrip p (w +:+ s) = lstrip p s.
Proof.
  induction w as [|c w IH]; [reflexivity|].
  intros [Hc Hw]%andb_true_iff. rewrite app_cons.
  cbn [lstrip]. rewrite Hc. auto.
Qed.

Lemma lstrip_outside p s : outside p (first_char s) -> lstrip p s = s.
Proof. destruct s as [|c s]; simpl; [reflexivity|]. now intros ->. Qed.

Lemma rstrip_cons_keep p c s :
  p c = false -> rstrip p (String c s) = String c (rstrip p s).
Proof. intros Hc. simpl. rewrite Hc. now destruct (rstrip p s). Qed.

Lemma rstrip_cons_nonempty p c s :
  rstrip p s <> EmptyString -> rstrip p (String c s) = String c (rstrip p s).
Proof. intros Hs. simpl. now destruct (rstrip p s). Qed.

Lemma rstrip_all p w : all p w = true -> rstrip p w = EmptyString.
Proof.
  induction w as [|c w IH]; simpl; [reflexivity|].
  intros [Hc Hw]%andb_true_iff. now rewrite (IH Hw), Hc.
Qed.

Lemma rstrip_outside p s : outside p (last_char s) -> rstrip p s = s.
Proof.
  induction s as [|c s IH]; [reflexivity|].
  destruct s as [|d s].
  - simpl. now intros ->.
  - intros Hl. rewrite rstrip_cons_nonempty; rewrite (IH Hl); congruence.
Qed.

Lemma rstrip_app_all p s w :
  all p w = true -> rstrip p (s +:+ w) = rstrip p s.
Proof.
  intros Hw. induction s as [|c s IH].
  - rewrite app_nil_l. now apply rstrip_all.
  - rewrite app_cons. simpl. now rewrite IH.
Qed.

Lemma rstrip_idem p s : rstrip p (rstrip p s) = rstrip p s.
Proof.
  induction s as [|c s IH]; [reflexivity|].
  simpl. destruct (rstrip p s) as [|d r] eqn:Hr.
  - destruct (p c) eqn:Hc; [reflexivity|]. simpl. now rewrite Hc.
  - rewrite rstrip_cons_nonempty; rewrite IH; congruence.
Qed.

Lemma lstrip_first p s : outside p (first_char (lstrip p s)).
Proof.
  induction s as [|c s IH]; simpl; [exact I|].
  destruct (p c) eqn:Hc; [exact IH|]. simpl. exact Hc.
Qed.

Lemma rstrip_first p s :
  outside p (first_char s) -> outside p (first_char (rstrip p s)).
Proof.
  destruct s as [|c s]; simpl; [trivial|]. intros Hc. rewrite Hc.
  now destruct (rstrip p s).
Qed.

Lemma strip_by_idem p s : strip_by p (strip_by p s) = strip_by p s.
Proof.
  unfold strip_by.
  rewrite (lstrip_outside p (rstrip p (lstrip p s))).
  - apply rstrip_idem.
  - apply rstrip_first, lstrip_first.
Qed.

(** A text between two runs of strippable characters, itself beginning and
    ending outside the class, is what [strip] leaves. *)
Lemma strip_by_sandwich p w1 s w2 :
  all p w1 = true -> all p w2 = true ->
  outside p (first_char s) -> outside p (last_char s) ->
  strip_by p (w1 +:+ s +:+ w2) = s.
Proof.
  intros H1 H2 Hf Hl. unfold strip_by.
  rewrite (lstrip_all _ _ _ H1).
  destruct s as [|c s].
  - rewrite app_nil_l.
    assert (lstrip p w2 = EmptyString) as ->; [|reflexivity].
    clear -H2. induction w2 as [|c w IH]; simpl in *; [reflexivity|].
    apply andb_true_iff in H2 as [-> Hw]. auto.
  - rewrite lstrip_outside by (rewrite app_cons; exact Hf).
    rewrite (rstrip_app_all _ _ _ H2). now apply rstrip_outside.
Qed.

Lemma last_char_app s t :
  t <> EmptyString -> last_char (s +:+ t) = last_char t.
Proof.
  intros Ht. induction s as [|c s IH]; [reflexivity|].
  rewrite app_cons. simpl. rewrite IH.
  destruct (s +:+ t) eqn:E; [|reflexivity].
  destruct s; [rewrite app_nil_l in E; contradiction|discriminate].
Qed.


(** [rstrip] keeps a prefix of the text. *)
Lemma startswith_rstrip p pre s :
  startswith pre (rstrip p s) = true -> startswith pre s = true.
Proof.
  revert s. induction pre as [|a pre IH]; intros s; [reflexivity|].
  destruct s as [|c s]; [discriminate|].
  simpl. destruct (rstrip p s) as [|d r] eqn:Hr.
  - destruct (p c); [discriminate|].
    intros [Hac Hp]%andb_true_iff. rewrite Hac. simpl.
    apply IH. now rewrite Hr.
  - intros [Hac Hp]%andb_true_iff. rewrite Hac. simpl.
    apply IH. now rewrite Hr.
Qed.



Lemma strip_by_keeps_first p c x :
  p c = false -> strip_by p (String c x) = String c (rstrip p x).
Proof.
  intros Hc. unfold strip_by. cbn [lstrip]. rewrite Hc.
  now apply rstrip_cons_keep.
Qed.

Lemma length_split_on c s : length (split_on c s) = S (count c s).
Proof.
  induction s as [|a s IH]; [reflexivity|].
  cbn [split_on count]. destruct (Ascii.eqb a c).
  - cbn [length]. now rewrite IH.
  - destruct (split_on c s); [discriminate|]. exact IH.
Qed.

Lemma split_on_one_comma s :
  count "," s = 1 -> exists v1 v2, split_on "," s = [v1; v2].
Proof.
  intros H. pose proof (length_split_on "," s) as Hl. rewrite H in Hl.
  destruct (split_on "," s) as [|v1 [|v2 [|v3 l]]]; try discriminate. eauto.
Qed.

(** [split] skips leading white space. *)
Lemma split_space w s : all isspace w = true -> split (w +:+ s) = split s.
Proof.
  induction w as [|c w IH]; [reflexivity|].
  cbn [all]. intros [Hc Hw]%andb_true_iff.
  rewrite app_cons. cbn [split]. rewrite Hc. auto.
Qed.

(** A run of characters outside white space, followed by white space, is
    the next token. *)
Lemma split_token t c s :
  t <> EmptyString -> all (fun a => negb (isspace a)) t = true ->
  isspace c = true ->
  split (t +:+ String c s) = t :: split s.
Proof.
  intros Hne Ht Hc. induction t as [|a t IH]; [contradiction|].
  cbn [all] in Ht. apply andb_true_iff in Ht as [Ha Ht].
  apply negb_true_iff in Ha.
  rewrite app_cons. cbn [split]. rewrite Ha.
  destruct t as [|b t].
  - rewrite app_nil_l. rewrite Hc. cbn [split]. now rewrite Hc.
  - rewrite app_cons. cbn [all] in Ht.
    apply andb_true_iff in Ht as [Hb Ht']. apply negb_true_iff in Hb.
    rewrite Hb. rewrite <- app_cons. rewrite IH; [reflexivity|discriminate|].
    cbn [all]. now rewrite Hb, Ht'.
Qed.

Lemma split_last_token t :
  t <> EmptyString -> all (fun a => negb (isspace a)) t = true ->
  split t = [t].
Proof.
  intros Hne Ht. induction t as [|a t IH]; [contradiction|].
  cbn [all] in Ht. apply andb_true_iff in Ht as [Ha Ht].
  apply negb_true_iff in Ha. cbn [split]. rewrite Ha.
  destruct t as [|b t]; [reflexivity|].
  cbn [all] in Ht. apply andb_true_iff in Ht as [Hb Ht'].
  apply negb_true_iff in Hb. rewrite Hb.
  rewrite IH; [reflexivity|discriminate|]. cbn [all]. now rewrite Hb, Ht'.
Qed.

End PyFacts.

(** ** Variable Naming: [get_var_name] *)

Module VarName.
Import Py PyFacts.

Lemma quote_not_space c : is_quote c = true -> isspace c = false.
Proof. destruct c as [[] [] [] [] [] [] [] []]; now vm_compute. Qed.

Lemma brace_not_space c : is_brace c = true -> isspace c = false.
Proof. destruct c as [[] [] [] [] [] [] [] []]; now vm_compute. Qed.

Lemma brace_not_quote c : is_brace c = true -> is_quote c = false.
Proof. destruct c as [[] [] [] [] [] [] [] []]; now vm_compute. Qed.

Lemma last_char_cons c s :
  s <> EmptyString -> last_char (String c s) = last_char s.
Proof. destruct s; [contradiction|reflexivity]. Qed.

Lemma app_nonempty_r s t : t <> EmptyString -> s +:+ t <> EmptyString.
Proof. destruct s; [now rewrite app_nil_l|discriminate]. Qed.

Lemma app_nonempty_l s t : s <> EmptyString -> s +:+ t <> EmptyString.
Proof. destruct s; [contradiction|discriminate]. Qed.

Lemma outside_last_all (p q : ascii -> bool) w :
  all p w = true -> (forall c, p c = true -> q c = false) ->
  outside q (last_char w).
Proof.
  intros Hw Hpq. induction w as [|c w IH]; [exact I|].
  simpl in Hw. apply andb_true_iff in Hw as [Hc Hw].
  destruct w as [|d w]; [simpl; auto|].
  rewrite last_char_cons by discriminate. auto.
Qed.

Lemma outside_last_app (p q : ascii -> bool) s w :
  all p w = true -> (forall c, p c = true -> q c = false) ->
  outside q (last_char s) -> outside q (last_char (s +:+ w)).
Proof.
  intros Hw Hpq Hs. destruct w as [|d w].
  - now rewrite app_nil_r.
  - rewrite last_char_app by discriminate. eapply outside_last_all; eauto.
Qed.

Lemma outside_first_app (p q : ascii -> bool) w s :
  all p w = true -> (forall c, p c = true -> q c = false) ->
  outside q (first_char s) -> outside q (first_char (w +:+ s)).
Proof.
  intros Hw Hpq Hs. destruct w as [|d w]; [exact Hs|].
  simpl in Hw. apply andb_true_iff in Hw as [Hd _].
  rewrite app_cons. simpl. auto.
Qed.

(** The last character of [$], braces, an identifier, braces. *)
Lemma outside_last_core (q : ascii -> bool) b1 id b2 d :
  all is_brace b2 = true -> (forall c, is_brace c = true -> q c = false) ->
  last_char id = Some d -> q d = false ->
  outside q (last_char (String "$" (b1 +:+ id +:+ b2))).
Proof.
  intros Hb2 Hbq Hd Hqd.
  assert (id <> EmptyString) as Hid by (intros ->; discriminate).
  rewrite last_char_cons by now apply app_nonempty_r, app_nonempty_l.
  rewrite <- app_assoc. eapply outside_last_app; eauto.
  rewrite last_char_app by assumption. now rewrite Hd.
Qed.

Lemma get_var_name_layered ws1 q1 b1 id b2 q2 ws2 d :
  all isspace ws1 = true -> all isspace ws2 = true ->
  all is_quote q1 = true -> all is_quote q2 = true ->
  all is_brace b1 = true -> all is_brace b2 = true ->
  outside is_brace (first_char id) ->
  last_char id = Some d ->
  isspace d = false -> is_quote d = false -> is_brace d = false ->
  get_var_name
    (ws1 +:+ q1 +:+ String "$" (b1 +:+ id +:+ b2) +:+ q2 +:+ ws2) = Ok id.
Proof.
  intros Hw1 Hw2 Hq1 Hq2 Hb1 Hb2 Hf Hd Hds Hdq Hdb.
  set (core := String "$" (b1 +:+ id +:+ b2)).
  assert (core <> EmptyString) as Hcore by discriminate.
  unfold get_var_name, strip, strip_chars.
  replace (ws1 +:+ q1 +:+ core +:+ q2 +:+ ws2)
    with (ws1 +:+ (q1 +:+ core +:+ q2) +:+ ws2)
    by (now rewrite !app_assoc).
  assert (outside isspace (last_char core) /\ outside is_quote (last_char core))
    as [Hls Hlq]
    by (split; eapply outside_last_core;
        eauto using brace_not_space, brace_not_quote).
  rewrite (strip_by_sandwich isspace); try assumption.
  - change (char_in quote_chars) with is_quote.
    rewrite (strip_by_sandwich is_quote); try assumption; [|exact eq_refl].
    change (startswith "$" core) with true. cbn [negb].
    change (slice_from 1 core) with (b1 +:+ id +:+ b2).
    change (char_in "{}") with is_brace.
    rewrite (strip_by_sandwich is_brace); try assumption; [reflexivity|].
    now rewrite Hd.
  - eapply outside_first_app; [exact Hq1|exact quote_not_space|exact eq_refl].
  - rewrite <- app_assoc. eapply outside_last_app;
      [exact Hq2|exact quote_not_space|].
    now rewrite last_char_app.
Qed.


Lemma get_var_name_ok t :
  startswith "$" (strip_chars quote_chars (strip t)) = true ->
  exists name, get_var_name t = Ok name.
Proof. intros H. unfold get_var_name. rewrite H. eauto. Qed.

(** Stripping the white space first does not change a successful result. *)
Lemma get_var_name_strip t name :
  get_var_name t = Ok name -> get_var_name (strip t) = Ok name.
Proof.
  unfold get_var_name, strip. rewrite strip_by_idem.
  destruct (negb _); [discriminate|trivial].
Qed.

(** A name that begins outside the braces and ends outside white space,
    quotes and braces is in normalized form. *)
Lemma get_var_name_normalized n d :
  outside is_brace (first_char n) -> last_char n = Some d ->
  isspace d = false -> is_quote d = false -> is_brace d = false ->
  get_var_name (String "$" n) = Ok n.
Proof.
  intros Hf Hl Hs Hq Hb.
  pose proof (get_var_name_layered EmptyString EmptyString EmptyString n
                EmptyString EmptyString EmptyString d eq_refl eq_refl eq_refl
                eq_refl eq_refl eq_refl Hf Hl Hs Hq Hb) as H.
  rewrite !app_nil_l, !app_nil_r in H. exact H.
Qed.

(** A token that begins with the dollar sign is a proper variable name. *)
Lemma get_var_name_dollar x : exists name, get_var_name (String "$" x) = Ok name.
Proof.
  apply get_var_name_ok. unfold strip, strip_chars.
  now rewrite !strip_by_keeps_first.
Qed.

End VarName.

(** ** The Expression Evaluator: [evaluate] *)

Section EvaluateFacts.
Import Py PyFacts VarName.

Context {World : Type}.
Variable run_command : string -> env -> World -> run_outcome * World.

#[local] Abbreviation eval := (evaluate World run_command).

Lemma strip_dollar n : strip (String "$" n) = String "$" (rstrip isspace n).
Proof.
  unfold strip, strip_by.
  change (lstrip isspace (String "$" n)) with (String "$" n).
  now apply rstrip_cons_keep.
Qed.

Lemma startswith_paren_rstrip n :
  startswith "(" (rstrip isspace n) = startswith "(" n.
Proof.
  destruct n as [|c n]; [reflexivity|].
  destruct (isspace c) eqn:Hc.
  - assert (Ascii.eqb "(" c = false) as Hne.
    { destruct (Ascii.eqb_spec "(" c) as [<-|]; [discriminate|reflexivity]. }
    cbn [rstrip]. rewrite Hc.
    destruct (rstrip isspace n); cbn [startswith]; now rewrite ?Hne.
  - rewrite rstrip_cons_keep by assumption. reflexivity.
Qed.

(** A dollar-prefixed name that Variable Naming leaves as it is, and that
    does not open a command substitution, is looked up under that name. *)
Lemma evaluate_variable n (E : env) m :
  startswith "(" n = false ->
  get_var_name (String "$" n) = Ok n ->
  eval (VStr (String "$" n)) E m = (Ok (var_result (E !! n)), m).
Proof.
  intros Hp Hn. unfold evaluate.
  rewrite strip_dollar.
  apply get_var_name_strip in Hn. rewrite strip_dollar in Hn.
  set (r := rstrip isspace n) in *.
  change (startswith "not " (String "$" r)) with false. cbv iota.
  change (startswith "$(" (String "$" r)) with (startswith "(" r).
  unfold r at 1. rewrite startswith_paren_rstrip, Hp.
  change (startswith "$" (String "$" r)) with true. cbn [orb].
  rewrite Hn. unfold var_result.
  destruct (E !! n) as [v|]; [destruct (truthy v)|]; reflexivity.
Qed.

Lemma strip_not_prefix c X :
  isspace c = false ->
  strip ("not " +:+ String c X) = "not " +:+ String c (rstrip isspace X).
Proof.
  intros Hc. unfold strip, strip_by.
  change (lstrip isspace ("not " +:+ String c X))
    with (String "n" (String "o" (String "t" (String " " (String c X))))).
  rewrite !(rstrip_cons_keep isspace) by (assumption || reflexivity).
  rewrite (rstrip_cons_nonempty isspace " ");
    rewrite !(rstrip_cons_keep isspace) by (assumption || reflexivity);
    [reflexivity|discriminate].
Qed.

(** One leading [not ] in front of a text that neither begins with white
    space nor with [not ] itself negates the logical result and keeps the
    value, the machine included. *)
Lemma evaluate_not X (E : env) m l v m' :
  outside isspace (first_char X) ->
  startswith "not " X = false ->
  eval (VStr X) E m = (Ok (l, v), m') ->
  eval (VStr ("not " +:+ X)) E m = (Ok (negb l, v), m').
Proof.
  intros Hf Hn. destruct X as [|c X]; [discriminate|].
  cbn [first_char outside] in Hf.
  unfold evaluate. rewrite (strip_not_prefix c X Hf).
  assert (strip (String c X) = String c (rstrip isspace X)) as ->.
  { unfold strip, strip_by. cbn [lstrip]. rewrite Hf.
    now apply rstrip_cons_keep. }
  assert (startswith "not " (String c (rstrip isspace X)) = false) as ->.
  { rewrite <- (rstrip_cons_keep isspace c X Hf).
    destruct (startswith "not " (rstrip isspace (String c X))) eqn:Hs;
      [|reflexivity].
    apply startswith_rstrip in Hs. congruence. }
  set (Y := String c (rstrip isspace X)).
  change (startswith "not " ("not " +:+ Y)) with true.
  change (slice_from 4 ("not " +:+ Y)) with Y.
  cbv iota. cbn [negb].
  destruct (startswith "$(" Y).
  { destruct (cl_n World run_command (slice_2_m1 Y) E m) as [[o|o] m1];
      intros [= <- <- <-]; reflexivity. }
  destruct (startswith "$" Y || startswith (String dquote "$") Y).
  { destruct (get_var_name Y) as [name|e]; [|discriminate].
    destruct (E !! name) as [w|]; [destruct (truthy w)|];
      intros [= <- <- <-]; reflexivity. }
  destruct (startswith "defined " Y); [|discriminate].
  destruct (get_var_name (slice_from 8 Y)) as [name|e]; [|discriminate].
  intros [= <- <- <-]. reflexivity.
Qed.

(** A second [not] is no inversion: the rest begins with [not] and matches
    no rule. *)
Lemma evaluate_not_not X (E : env) m :
  eval (VStr ("not not " +:+ X)) E m
  = (Raise (YamlSyntaxError ("Not a valid expression: not not " +:+ X)), m).
Proof.
  unfold evaluate.
  assert (exists R, strip ("not not " +:+ X)
                    = String "n" (String "o" (String "t" (String " "
                        (String "n" (String "o" (String "t" R))))))) as [R ->].
  { unfold strip, strip_by. rewrite lstrip_outside by exact eq_refl.
    change ("not not " +:+ X)
      with (String "n" (String "o" (String "t" (String " "
             (String "n" (String "o" (String "t" (String " " X)))))))).
    rewrite !(rstrip_cons_keep isspace) by reflexivity.
    rewrite (rstrip_cons_nonempty isspace " ");
      rewrite !(rstrip_cons_keep isspace) by reflexivity;
      [eauto|discriminate]. }
  reflexivity.
Qed.

End EvaluateFacts.

(** ** The matcher on runs of a character class *)

Module ReFacts.
Import Py PyFacts Re.

Section Loops.
Context {A : Type}.
Implicit Types (k : string -> string -> option A).

(** The greedy loop takes a whole run when the rest then matches. *)
Lemma star_loop_take p w r k a :
  all p w = true -> outside p (first_char r) ->
  k w r = Some a -> star_loop p (w +:+ r) k = Some a.
Proof.
  revert k. induction w as [|c w IH]; intros k Hw Hr Hk.
  - rewrite app_nil_l. destruct r as [|c r]; [exact Hk|].
    cbn [star_loop]. cbn [first_char outside] in Hr. now rewrite Hr.
  - cbn [all] in Hw. apply andb_true_iff in Hw as [Hc Hw].
    rewrite app_cons. cbn [star_loop]. rewrite Hc.
    now rewrite (IH (fun m rest => k (String c m) rest)).
Qed.

(** The loop fails when the rest of the pattern fails at every place where
    the loop can stop. *)
Lemma star_loop_none p w r k :
  all p w = true -> outside p (first_char r) ->
  (forall m, k m r = None) ->
  (forall m c s, p c = true -> k m (String c s) = None) ->
  star_loop p (w +:+ r) k = None.
Proof.
  revert k. induction w as [|c w IH]; intros k Hw Hr Hend Hin.
  - rewrite app_nil_l. destruct r as [|c r]; [apply Hend|].
    cbn [star_loop]. cbn [first_char outside] in Hr. rewrite Hr. apply Hend.
  - cbn [all] in Hw. apply andb_true_iff in Hw as [Hc Hw].
    rewrite app_cons. cbn [star_loop]. rewrite Hc.
    rewrite (IH (fun m rest => k (String c m) rest)); auto.
Qed.
End Loops.

Section Runs.
Context {A : Type}.
Implicit Types (k : string -> string -> groups -> option A).


Lemma run_plus_take p w r g k a :
  w <> EmptyString -> all p w = true -> outside p (first_char r) ->
  k w r g = Some a -> run (Plus p) (w +:+ r) g k = Some a.
Proof.
  intros Hne Hw Hr Hk. destruct w as [|c w]; [contradiction|].
  cbn [all] in Hw. apply andb_true_iff in Hw as [Hc Hw].
  rewrite app_cons. unfold Plus. cbn [run]. rewrite Hc.
  now apply star_loop_take.
Qed.

End Runs.

(** The matcher is sound: when it answers, the continuation answered on a
    split of the text whose first part the pattern can match, with groups
    that hold what the pattern lets them hold, the groups outside any
    option among them. *)
Lemma star_loop_sound {A} p s (k : string -> string -> option A) a :
  star_loop p s k = Some a ->
  exists m s', s = m +:+ s' /\ all p m = true /\ k m s' = Some a.
Proof.
  revert k. induction s as [|c s IH]; intros k; cbn [star_loop].
  - intros Hk. exists EmptyString, EmptyString. auto.
  - destruct (p c) eqn:Hc.
    + destruct (star_loop p s _) as [a'|] eqn:Hl.
      * intros [= ->]. apply IH in Hl as (m & s' & -> & Hm & Hk).
        exists (String c m), s'. cbn [all]. rewrite Hc. auto.
      * intros Hk. exists EmptyString, (String c s). auto.
    + intros Hk. exists EmptyString, (String c s). auto.
Qed.

Lemma run_sound {A} (P : nat -> string -> Prop) r :
  captures P r ->
  forall s g (k : string -> string -> groups -> option A) a,
  run r s g k = Some a -> groups_in P g ->
  exists m s' g',
    s = m +:+ s' /\ lang r m /\ groups_in P g'
    /\ (forall i, sets r i = true \/ g i <> None -> g' i <> None)
    /\ k m s' g' = Some a.
Proof.
  induction r as [|c|p|r1 IH1 r2 IH2|r1 IH1|p|j r1 IH1];
    intros Hc s g k a Hrun Hg; cbn [run] in Hrun.
  - exists EmptyString, s, g. cbn. intuition congruence.
  - destruct s as [|c' s]; [discriminate|].
    destruct (Ascii.eqb_spec c' c) as [->|]; [|discriminate].
    exists (String c EmptyString), s, g. cbn. intuition congruence.
  - destruct s as [|c' s]; [discriminate|].
    destruct (p c') eqn:Hp; [|discriminate].
    exists (String c' EmptyString), s, g. cbn. intuition (eauto; congruence).
  - destruct Hc as [Hc1 Hc2].
    apply (IH1 Hc1) in Hrun as (m1 & s1 & g1 & -> & Hl1 & Hg1 & Hs1 & Hrun);
      [|assumption].
    apply (IH2 Hc2) in Hrun as (m2 & s2 & g2 & -> & Hl2 & Hg2 & Hs2 & Hk);
      [|assumption].
    exists (m1 +:+ m2), s2, g2. split; [now rewrite app_assoc|].
    split; [cbn; eauto|]. split; [assumption|]. split; [|assumption].
    intros i Hi. apply Hs2. cbn [sets] in Hi.
    destruct (sets r2 i); [now left|right]. rewrite orb_false_r in Hi.
    now apply Hs1.
  - destruct (run r1 s g k) as [a'|] eqn:Hr.
    + injection Hrun as ->.
      apply (IH1 Hc) in Hr as (m & s' & g' & -> & Hl & Hg' & Hs & Hk);
        [|assumption].
      exists m, s', g'. cbn [lang sets]. repeat split; auto.
      intros i [Hi|Hi]; [discriminate|]. apply Hs. now right.
    + exists EmptyString, s, g. cbn. intuition congruence.
  - apply star_loop_sound in Hrun as (m & s' & -> & Hm & Hk).
    exists m, s', g. cbn. intuition congruence.
  - destruct Hc as [HP Hc].
    apply (IH1 Hc) in Hrun as (m & s' & g' & -> & Hl & Hg' & Hs & Hk);
      [|assumption].
    exists m, s', (set_group j m g'). split; [reflexivity|].
    split; [exact Hl|]. split; [|split; [|exact Hk]].
    + intros i t. unfold set_group. destruct (Nat.eqb_spec i j) as [->|].
      * intros [= <-]. auto.
      * apply Hg'.
    + intros i Hi. unfold set_group. destruct (Nat.eqb_spec i j) as [->|Hne];
        [discriminate|]. apply Hs. cbn [sets] in Hi.
      apply Nat.eqb_neq in Hne. now rewrite Hne in Hi.
Qed.

End ReFacts.

(** ** The Loop Header Parser: [parse_for] *)

Module ForHeader.
Import Py PyFacts Re ReFacts VarName.

Lemma plain_facts v : plain_char v = true ->
  nonspace v = true /\ Ascii.eqb v "{" = false /\ Ascii.eqb v "}" = false
  /\ isspace v = false /\ is_quote v = false /\ is_brace v = false.
Proof. destruct v as [[] [] [] [] [] [] [] []]; vm_compute; intuition congruence. Qed.

Lemma run_for_var {A} b v rest g (k : string -> string -> groups -> option A) a:
  plain_char v = true -> outside (fun c => Ascii.eqb c "}") (first_char rest) ->
  k (var_token b v) rest g = Some a ->
  run for_var (var_token b v +:+ rest) g k = Some a.
Proof.
  intros Hv Hr Hk. apply plain_facts in Hv as (Hns & Hlb & Hrb & _).
  destruct b.
  - change (var_token true v +:+ rest) with (String "$" (String "{" (String v (String "}" rest)))).
    unfold for_var. cbn [run]. rewrite !Ascii.eqb_refl, Hns.
    norm_app. cbn [var_token] in Hk. now rewrite Hk.
  - change (var_token false v +:+ rest) with (String "$" (String v rest)).
    unfold for_var. cbn [run]. rewrite !Ascii.eqb_refl, Hlb, Hns.
    norm_app. cbn [var_token] in Hk.
    destruct rest as [|c rest]; [exact Hk|].
    cbn [first_char outside] in Hr. now rewrite Hr.
Qed.

Lemma space_facts c : isspace c = true ->
  Ascii.eqb c "," = false /\ Ascii.eqb c "}" = false /\ Ascii.eqb c "i" = false
  /\ Ascii.eqb c "$" = false.
Proof. destruct c as [[] [] [] [] [] [] [] []]; vm_compute; intuition congruence. Qed.



Lemma run_for_tail {A} w2 w3 e g (k : string -> string -> groups -> option A) a :
  all isspace w2 = true -> w2 <> EmptyString ->
  all isspace w3 = true -> w3 <> EmptyString ->
  outside isspace (first_char e) -> all dot e = true -> 2 <= String.length e ->
  (forall m, k m EmptyString (set_group 3 e g) = Some a) ->
  run for_tail (w2 +:+ "in" +:+ w3 +:+ e) g k = Some a.
Proof.
  intros Hw2 Hn2 Hw3 Hn3 Hf Hd Hlen Hk.
  destruct e as [|c0 [|c1 e]]; [simpl in Hlen; lia..|].
  cbn [first_char outside] in Hf.
  cbn [all] in Hd. apply andb_true_iff in Hd as [_ [Hc1 He]%andb_true_iff].
  unfold for_tail. cbn [run].
  apply run_plus_take; [assumption..|exact eq_refl|].
  change ("in" +:+ w3 +:+ String c0 (String c1 e))
    with (String "i" (String "n" (w3 +:+ String c0 (String c1 e)))).
  cbn [Lit run]. rewrite !Ascii.eqb_refl.
  apply run_plus_take; [assumption..| |].
  { cbn [first_char outside]. exact Hf. }
  cbn [run]. unfold nonspace at 1. rewrite Hf. cbn [negb].
  rewrite <- (app_nil_r (String c1 e)).
  apply run_plus_take;
    [discriminate|cbn [all]; now rewrite Hc1|exact I|].
  norm_app. apply Hk.
Qed.

Lemma run_for_second_none {A} w2 rest g (k : string -> string -> groups -> option A) :
  all isspace w2 = true ->
  run for_second (w2 +:+ "in" +:+ rest) g k = None.
Proof.
  intros Hw2. unfold for_second. cbn [run].
  apply star_loop_none; [assumption|exact eq_refl|reflexivity|].
  intros m c s Hc. apply space_facts in Hc as (Hc & _). now rewrite Hc.
Qed.

Lemma first_char_var_token b v s :
  first_char (var_token b v +:+ s) = Some "$"%char.
Proof. now destruct b. Qed.

Lemma run_for_second_take {A} w4 w5 b v rest g
      (k : string -> string -> groups -> option A) a :
  all isspace w4 = true ->
  all isspace w5 = true -> w5 <> EmptyString ->
  plain_char v = true ->
  outside (fun c => Ascii.eqb c "}") (first_char rest) ->
  (forall m, k m rest (set_group 2 (var_token b v) g) = Some a) ->
  run for_second (w4 +:+ "," +:+ w5 +:+ var_token b v +:+ rest) g k = Some a.
Proof.
  intros Hw4 Hw5 Hn5 Hv Hr Hk. unfold for_second. cbn [run].
  apply star_loop_take; [assumption|exact eq_refl|].
  rewrite app_cons, app_nil_l, Ascii.eqb_refl.
  apply run_plus_take; [assumption..| |].
  { now rewrite first_char_var_token. }
  apply run_for_var; [assumption..|]. apply Hk.
Qed.

Lemma outside_rbrace_space w s :
  all isspace w = true -> w <> EmptyString ->
  outside (fun c => Ascii.eqb c "}") (first_char (w +:+ s)).
Proof.
  intros Hw Hne. destruct w as [|c w]; [contradiction|].
  cbn [all] in Hw. apply andb_true_iff in Hw as [Hc _].
  rewrite app_cons. cbn [first_char outside].
  now apply space_facts in Hc as (_ & Hc & _).
Qed.

Lemma match_one_variable w1 b v w2 w3 e :
  all isspace w1 = true -> w1 <> EmptyString ->
  all isspace w2 = true -> w2 <> EmptyString ->
  all isspace w3 = true -> w3 <> EmptyString ->
  plain_char v = true ->
  outside isspace (first_char e) -> all dot e = true -> 2 <= String.length e ->
  match_ for_regex
    ("for" +:+ w1 +:+ var_token b v +:+ w2 +:+ "in" +:+ w3 +:+ e)
  = Some (set_group 3 e (set_group 1 (var_token b v) no_groups)).
Proof.
  intros Hw1 Hn1 Hw2 Hn2 Hw3 Hn3 Hv Hf Hd Hlen.
  unfold match_, for_regex.
  rewrite (app_cons "f"), (app_cons "o"), (app_cons "r"), app_nil_l.
  cbn [run Lit]. rewrite !Ascii.eqb_refl.
  apply run_plus_take; [assumption..| |].
  { now rewrite first_char_var_token. }
  cbn [run].
  apply run_for_var; [assumption|now apply outside_rbrace_space|].
  cbn [run]. rewrite run_for_second_none by assumption.
  apply run_for_tail; try assumption. reflexivity.
Qed.

Lemma match_two_variables w1 b1 k w4 w5 b2 v w2 w3 e :
  all isspace w1 = true -> w1 <> EmptyString ->
  all isspace w4 = true ->
  all isspace w5 = true -> w5 <> EmptyString ->
  all isspace w2 = true -> w2 <> EmptyString ->
  all isspace w3 = true -> w3 <> EmptyString ->
  plain_char k = true -> plain_char v = true ->
  outside isspace (first_char e) -> all dot e = true -> 2 <= String.length e ->
  match_ for_regex
    ("for" +:+ w1 +:+ var_token b1 k +:+ w4 +:+ "," +:+ w5 +:+ var_token b2 v
     +:+ w2 +:+ "in" +:+ w3 +:+ e)
  = Some (set_group 3 e (set_group 2 (var_token b2 v)
            (set_group 1 (var_token b1 k) no_groups))).
Proof.
  intros Hw1 Hn1 Hw4 Hw5 Hn5 Hw2 Hn2 Hw3 Hn3 Hk Hv Hf Hd Hlen.
  unfold match_, for_regex.
  rewrite (app_cons "f"), (app_cons "o"), (app_cons "r"), app_nil_l.
  cbn [run Lit]. rewrite !Ascii.eqb_refl.
  apply run_plus_take; [assumption..| |].
  { now rewrite first_char_var_token. }
  cbn [run].
  apply run_for_var; [assumption| |].
  { destruct w4 as [|c w4]; [exact eq_refl|].
    now apply outside_rbrace_space. }
  cbn [run].
  erewrite run_for_second_take; try eassumption; [reflexivity| |].
  { now apply outside_rbrace_space. }
  intros m. apply run_for_tail; try assumption. reflexivity.
Qed.

Lemma get_var_name_token b v :
  plain_char v = true -> get_var_name (var_token b v) = Ok (String v EmptyString).
Proof.
  intros Hv. apply plain_facts in Hv as (_ & _ & _ & Hs & Hq & Hb).
  destruct b.
  - apply (get_var_name_layered EmptyString EmptyString "{"
             (String v EmptyString) "}" EmptyString EmptyString v);
      try reflexivity; assumption.
  - apply (get_var_name_layered EmptyString EmptyString EmptyString
             (String v EmptyString) EmptyString EmptyString EmptyString v);
      try reflexivity; assumption.
Qed.

Lemma parse_for_one_variable w1 b v w2 w3 e :
  all isspace w1 = true -> w1 <> EmptyString ->
  all isspace w2 = true -> w2 <> EmptyString ->
  all isspace w3 = true -> w3 <> EmptyString ->
  plain_char v = true ->
  outside isspace (first_char e) -> all dot e = true -> 2 <= String.length e ->
  parse_for ("for" +:+ w1 +:+ var_token b v +:+ w2 +:+ "in" +:+ w3 +:+ e)
  = Ok ([String v EmptyString], e).
Proof.
  intros. unfold parse_for. rewrite match_one_variable by assumption.
  cbn [groups_of]. cbv [set_group no_groups Nat.eqb].
  cbn [group_text group_truthy get_var_name_group].
  now rewrite get_var_name_token.
Qed.

Lemma parse_for_two_variables w1 b1 k w4 w5 b2 v w2 w3 e :
  all isspace w1 = true -> w1 <> EmptyString ->
  all isspace w4 = true ->
  all isspace w5 = true -> w5 <> EmptyString ->
  all isspace w2 = true -> w2 <> EmptyString ->
  all isspace w3 = true -> w3 <> EmptyString ->
  plain_char k = true -> plain_char v = true ->
  outside isspace (first_char e) -> all dot e = true -> 2 <= String.length e ->
  parse_for ("for" +:+ w1 +:+ var_token b1 k +:+ w4 +:+ "," +:+ w5
             +:+ var_token b2 v +:+ w2 +:+ "in" +:+ w3 +:+ e)
  = Ok ([String k EmptyString; String v EmptyString], e).
Proof.
  intros. unfold parse_for. rewrite match_two_variables by assumption.
  cbn [groups_of]. cbv [set_group no_groups Nat.eqb].
  cbn [group_text group_truthy get_var_name_group].
  rewrite !get_var_name_token by assumption.
  now destruct b2.
Qed.

(** Whatever the header, a match binds group 1, and groups 1 and 2 begin
    with the dollar sign: [get_var_name] accepts them. *)
Lemma captures_for_regex : captures var_group for_regex.
Proof.
  unfold var_group. cbn.
  repeat split; auto; intros t _ [H|H]; discriminate.
Qed.

Lemma lang_for_var t : lang for_var t -> exists x, t = String "$" x.
Proof. cbn. intros (m1 & m2 & -> & -> & _). eauto. Qed.

Lemma match_groups header g :
  match_ for_regex header = Some g ->
  (exists x, g 1 = Some (String "$" x))
  /\ (g 2 = None \/ exists x, g 2 = Some (String "$" x))
  /\ g 3 <> None.
Proof.
  unfold match_. intros Hrun.
  apply (run_sound var_group _ captures_for_regex) in Hrun
    as (m & s' & g' & _ & _ & Hg' & Hs & [= <-]); [|discriminate].
  split.
  - destruct (g' 1) as [t|] eqn:H1.
    + destruct (lang_for_var t) as [x ->]; [apply (Hg' 1); auto|]. eauto.
    + now destruct (Hs 1 (or_introl eq_refl)).
  - split; [|exact (Hs 3 (or_introl eq_refl))].
    destruct (g' 2) as [t|] eqn:H2; [right|now left].
    destruct (lang_for_var t) as [x ->]; [apply (Hg' 2); auto|]. eauto.
Qed.

Lemma parse_for_outcome header :
  parse_for header
  = Raise (AttributeError "'NoneType' object has no attribute 'groups'")
  \/ exists cvs expr, parse_for header = Ok (cvs, expr).
Proof.
  unfold parse_for.
  destruct (match_ for_regex header) as [g|] eqn:Hm; [right|now left].
  apply match_groups in Hm as ([x1 H1] & H2 & _). cbn [groups_of]. rewrite H1.
  cbn [get_var_name_group]. destruct (get_var_name_dollar x1) as [n1 ->].
  destruct H2 as [->|[x2 ->]]; cbn [group_truthy get_var_name_group negb];
    [eauto|].
  change (String.eqb (String "$" x2) EmptyString) with false. cbn [negb].
  destruct (get_var_name_dollar x2) as [n2 ->]. eauto.
Qed.

End ForHeader.

(** ** The operations built on [evaluate] *)

Section OperationFacts.
Import Py PyFacts VarName.

Context {World : Type}.
Variable run_command : string -> env -> World -> run_outcome * World.

#[local] Abbreviation eval := (evaluate World run_command).
#[local] Abbreviation assign := (assign_variable World run_command).
#[local] Abbreviation resolve :=
  (get_for_control_var_and_eval_expr World run_command).

(** [parse_for] declares one or two control variables. *)
Lemma parse_for_arity header cvs expr :
  parse_for header = Ok (cvs, expr) -> length cvs = 1 \/ length cvs = 2.
Proof.
  unfold parse_for.
  destruct (groups_of _) as [[[r0 r1] r2]|]; [|discriminate].
  destruct (get_var_name_group r0); [|discriminate].
  destruct (group_truthy r1).
  - destruct (get_var_name_group r1); [|discriminate].
    intros [= <- _]. now right.
  - intros [= <- _]. now left.
Qed.

(** Two targets: the logical result goes to the first, the value to the
    second. *)
Lemma assign_two_targets X (E : env) m l v m1 :
  eval X E m = (Ok (l, v), m1) ->
  assign "$a,$b" X E m
  = (Ok tt, <["b" := v]> (<["a" := VBool l]> E), m1).
Proof.
  intros HX. unfold assign_variable.
  change (count "," "$a,$b") with 1. cbn [Nat.ltb Nat.leb Nat.eqb].
  now rewrite HX.
Qed.

Lemma lookup_after_assign_a (E : env) l v :
  (<["b" := v]> (<["a" := VBool l]> E)) !! "a" = Some (VBool l).
Proof. rewrite lookup_insert_ne by discriminate. apply lookup_insert_eq. Qed.

Lemma lookup_after_assign_b (E : env) l v :
  (<["b" := v]> (<["a" := VBool l]> E)) !! "b" = Some v.
Proof. apply lookup_insert_eq. Qed.

(** More than one comma: nothing is evaluated, nothing is bound. *)
Lemma assign_commas variable comm (E : env) m :
  1 < count "," variable ->
  assign variable comm E m
  = (Raise (YamlSyntaxError "Max two variables allowed on left side."), E, m).
Proof.
  intros H. unfold assign_variable.
  apply Nat.ltb_lt in H. now rewrite H.
Qed.

(** A syntax error of the inner evaluation never leaves the resolver: the
    handler fails on the unbound [logger] first. *)
Lemma resolve_masks_evaluate_error header (E : env) m cvs expr msg m' :
  parse_for header = Ok (cvs, expr) ->
  eval (VStr expr) E m = (Raise (YamlSyntaxError msg), m') ->
  resolve header E m = (Raise (NameError "name 'logger' is not defined"), m').
Proof.
  intros Hp He. unfold get_for_control_var_and_eval_expr.
  now rewrite Hp, He.
Qed.

(** A call of [assign_variable] that raises leaves the environment as it
    was, and the unpacking of the two targets never fails. *)
Lemma assign_raise (variable : string) comm (E E' : env) m m' e :
  assign variable comm E m = (Raise e, E', m') ->
  E' = E /\ (forall msg, e <> ValueError msg).
Proof.
  unfold assign_variable.
  destruct (1 <? count "," variable); [now intros [= <- <- <-]|].
  destruct (eval comm E m) as [[[res1 res2]|e0] m1] eqn:He.
  - destruct (Nat.eqb_spec (count "," variable) 1) as [H1|_].
    + destruct (split_on_one_comma _ H1) as (v1 & v2 & ->). cbn [map].
      unfold get_var_name.
      destruct (negb _); [now intros [= <- <- <-]|].
      destruct (negb _); [now intros [= <- <- <-]|discriminate].
    + unfold get_var_name.
      destruct (negb _); [now intros [= <- <- <-]|discriminate].
  - intros [= <- <- <-]. split; [reflexivity|].
    intros msg ->. revert He. unfold evaluate.
    destruct comm; try discriminate.
    destruct (startswith "$(" _).
    { destruct (cl_n _ _ _ _ _) as [[o|o] m2]; discriminate. }
    destruct (_ || _).
    { unfold get_var_name. destruct (negb _); [discriminate|].
      destruct (E !! _) as [w|]; [destruct (truthy w)|]; discriminate. }
    destruct (startswith "defined " _); [|discriminate].
    unfold get_var_name. destruct (negb _); discriminate.
Qed.

End OperationFacts.

(** * The claims of the specification *)

(** ** Variable lookup (C1) *)

(** C1, as stated, fails: a name that Variable Naming does not leave as it
    is, is not looked up under itself. The name [{a}] is no key of the
    environment that binds [a] alone, yet [evaluate("$" + "{a}")] looks up
    [a] and reports (true, 'x') where the claim says (false, ''); and for
    the name [(echo hi)], bound to nothing, it runs a command and reports
    (true, 'hi'). *)
Lemma evaluate_variable_unnormalized_name :
  env_a !! "{a}" = None
  /\ evaluate nat stub_run (VStr ("$" +:+ "{a}")) env_a m0
     = (Ok (true, VStr "x"), m0)
  /\ evaluate nat stub_run (VStr ("$" +:+ "{a}")) env_a m0
     <> (Ok (false, empty_str), m0)
  /\ (∅ : env) !! "(echo hi)" = None
  /\ evaluate nat stub_run (VStr ("$" +:+ "(echo hi)")) ∅ m0
     = (Ok (true, VStr "hi"), Machine 1 ["echo hi"]).
Proof.
  split; [vm_compute; reflexivity|]. split; [vm_compute; reflexivity|].
  split; [vm_compute; discriminate|]. split; vm_compute; reflexivity.
Qed.

(** C1, amended: for every environment [E] and every name [n] that is in
    normalized form (Variable Naming maps [$n] to [n] itself, and [n] does
    not begin with an opening parenthesis), [evaluate("$" + n, E)] returns
    (true, E[n]) when [n] is a key of [E] bound to a truthy value, and
    (false, '') in every other case; no command is run. *)
Theorem evaluate_variable_lookup
        (World : Type) (run : string -> env -> World -> run_outcome * World)
        (E : env) (n : string) (m : machine World) :
  Py.startswith "(" n = false ->
  get_var_name ("$" +:+ n) = Ok n ->
  (forall v, E !! n = Some v -> truthy v = true ->
     evaluate World run (VStr ("$" +:+ n)) E m = (Ok (true, v), m))
  /\ ((E !! n = None \/ exists v, E !! n = Some v /\ truthy v = false) ->
      evaluate World run (VStr ("$" +:+ n)) E m = (Ok (false, empty_str), m)).
Proof.
  intros Hp Hn.
  pose proof (evaluate_variable run n E m Hp Hn) as He.
  change ("$" +:+ n) with (String "$" n). rewrite He. split.
  - intros v -> Hv. cbn [var_result]. now rewrite Hv.
  - intros [-> | (v & -> & Hv)]; cbn [var_result]; [|rewrite Hv]; reflexivity.
Qed.

(** The theorem at the name [foo], bound to a truthy text and not bound. *)
Lemma evaluate_variable_lookup_witness :
  Py.startswith "(" "foo" = false
  /\ get_var_name ("$" +:+ "foo") = Ok "foo"
  /\ evaluate nat stub_run (VStr ("$" +:+ "foo")) env_foo m0
     = (Ok (true, VStr "bar baz"), m0)
  /\ evaluate nat stub_run (VStr ("$" +:+ "foo")) ∅ m0
     = (Ok (false, empty_str), m0).
Proof.
  split; [reflexivity|]. split; [reflexivity|]. split.
  - destruct (evaluate_variable_lookup nat stub_run env_foo "foo" m0
                eq_refl eq_refl) as (Hbound & _).
    exact (Hbound (VStr "bar baz") eq_refl eq_refl).
  - destruct (evaluate_variable_lookup nat stub_run ∅ "foo" m0
                eq_refl eq_refl) as (_ & Hfree).
    exact (Hfree (or_introl eq_refl)).
Defined.

(** ** Loop headers (C2, C3) *)

(** C2: the code does not do what the claim says. A header that does not
    match the pattern makes [regex.match] return [None], and the call of
    [.groups()] on it raises [AttributeError] before the test that was
    meant to raise the syntax error is reached. So whatever the header,
    [parse_for] either returns or raises [AttributeError], never the syntax
    error; the header [for $i $foo], which lacks the [in] keyword, is one
    that raises it. *)
Theorem parse_for_never_raises_syntax_error (header : string) :
  (parse_for header
   = Raise (AttributeError "'NoneType' object has no attribute 'groups'")
   \/ exists cvs expr, parse_for header = Ok (cvs, expr))
  /\ Re.match_ for_regex "for $i $foo" = None
  /\ parse_for "for $i $foo"
     = Raise (AttributeError "'NoneType' object has no attribute 'groups'")
  /\ is_syntax_error
       (AttributeError "'NoneType' object has no attribute 'groups'") = false.
Proof.
  split; [apply ForHeader.parse_for_outcome|].
  repeat split; vm_compute; reflexivity.
Qed.

(** C3: the code does not do what the claim says. The pattern has [\S],
    one character, where the name of a control variable was meant, so a
    header whose variable has two characters or more does not match and
    the call ends in [AttributeError]; the form [for $var in expression]
    that the error message of [parse_for] itself names is among them. And
    for [for ${i} in $(ls $foo)] the expression comes back with its
    wrapper, [$(ls $foo)], where the documentation of [parse_for] and the
    claim say [ls $foo]. *)
Theorem parse_for_rejects_longer_names :
  parse_for "for $var in expression"
  = Raise (AttributeError "'NoneType' object has no attribute 'groups'")
  /\ parse_for "for $foo in $bar"
     = Raise (AttributeError "'NoneType' object has no attribute 'groups'")
  /\ parse_for "for ${item} in $(ls $foo)"
     = Raise (AttributeError "'NoneType' object has no attribute 'groups'")
  /\ parse_for "for $key, $value in $foo"
     = Raise (AttributeError "'NoneType' object has no attribute 'groups'")
  /\ parse_for "for ${i} in $(ls $foo)" = Ok (["i"], "$(ls $foo)")
  /\ parse_for "for ${i} in $(ls $foo)" <> Ok (["i"], "ls $foo").
Proof. repeat split; vm_compute; try reflexivity. discriminate. Qed.

(** ** Propagation of syntax errors (C4) *)

(** C4: the code does not do what the claim says. For the header
    [for $i in foo] the inner evaluation raises the syntax error "Not a valid
    expression: foo"; the handler of the resolver then refers to [logger],
    which this module never binds, so a [NameError] reaches the caller in
    place of the syntax error. *)
Theorem loop_resolver_masks_syntax_error
        (World : Type) (run : string -> env -> World -> run_outcome * World)
        (E : env) (m : machine World) :
  parse_for "for $i in foo" = Ok (["i"], "foo")
  /\ evaluate World run (VStr "foo") E m
     = (Raise (YamlSyntaxError "Not a valid expression: foo"), m)
  /\ get_for_control_var_and_eval_expr World run "for $i in foo" E m
     = (Raise (NameError "name 'logger' is not defined"), m).
Proof.
  assert (parse_for "for $i in foo" = Ok (["i"], "foo")) as Hp
    by (vm_compute; reflexivity).
  assert (evaluate World run (VStr "foo") E m
          = (Raise (YamlSyntaxError "Not a valid expression: foo"), m)) as He
    by reflexivity.
  split; [exact Hp|]. split; [exact He|].
  exact (resolve_masks_evaluate_error run _ E m _ _ _ m Hp He).
Qed.

(** ** Assignment (C5, C10) *)

(** C5, as stated, fails twice. The target list [a,b] of the claim has no
    dollar signs, so Variable Naming rejects it and nothing is bound. And
    with the targets [$a,$b], a falsy value that is not the empty text (here
    the empty list) is not what [$b] evaluates to afterwards: the value
    reported is the empty text. *)
Lemma assign_round_trip_fails :
  assign_variable nat stub_run "a,b" (VStr "$foo") env_foo m0
  = (Raise (YamlSyntaxError "Not a proper variable name: a"), env_foo, m0)
  /\ evaluate nat stub_run (VList []) ∅ m0 = (Ok (false, VList []), m0)
  /\ (exists E' : env,
        assign_variable nat stub_run "$a,$b" (VList []) ∅ m0 = (Ok tt, E', m0)
        /\ evaluate nat stub_run (VStr "$b") E' m0 = (Ok (false, empty_str), m0)
        /\ empty_str <> VList []).
Proof.
  split; [vm_compute; reflexivity|]. split; [reflexivity|].
  eexists. split; [apply assign_two_targets; reflexivity|].
  split; [vm_compute; reflexivity|discriminate].
Qed.

(** C5, amended: for every environment [E] and every expression [X] whose
    evaluation returns (l, v), the call assign("$a,$b", X, E), with the
    targets written with their dollar signs, binds [a] to the boolean [l]
    and [b] to [v]; afterwards "$a" evaluates to the logical result [l],
    and "$b" evaluates to exactly the value [v] whenever [v] is truthy or
    is the empty text. *)
Theorem assign_round_trip
        (World : Type) (run : string -> env -> World -> run_outcome * World)
        (E : env) (X : value) (m m1 : machine World) (l : bool) (v : value) :
  evaluate World run X E m = (Ok (l, v), m1) ->
  let E' : env := <["b" := v]> (<["a" := VBool l]> E) in
  assign_variable World run "$a,$b" X E m = (Ok tt, E', m1)
  /\ evaluate World run (VStr "$a") E' m1
     = (Ok (l, if l then VBool true else empty_str), m1)
  /\ (truthy v = true \/ v = empty_str ->
      evaluate World run (VStr "$b") E' m1 = (Ok (truthy v, v), m1)).
Proof.
  intros HX E'. split; [now apply assign_two_targets|]. split.
  - rewrite (evaluate_variable run "a" E' m1) by reflexivity.
    unfold E'. rewrite lookup_after_assign_a. now destruct l.
  - intros Hv. rewrite (evaluate_variable run "b" E' m1) by reflexivity.
    unfold E'. rewrite lookup_after_assign_b. cbn [var_result].
    destruct Hv as [-> | ->]; reflexivity.
Qed.

(** The theorem at the expression [$foo], which evaluates to a truthy text. *)
Lemma assign_round_trip_witness :
  let E' : env := <["b" := VStr "bar baz"]> (<["a" := VBool true]> env_foo) in
  assign_variable nat stub_run "$a,$b" (VStr "$foo") env_foo m0 = (Ok tt, E', m0)
  /\ evaluate nat stub_run (VStr "$a") E' m0 = (Ok (true, VBool true), m0)
  /\ evaluate nat stub_run (VStr "$b") E' m0 = (Ok (true, VStr "bar baz"), m0).
Proof.
  destruct (assign_round_trip nat stub_run env_foo (VStr "$foo") m0 m0
              true (VStr "bar baz") eq_refl) as (Hassign & Ha & Hb).
  split; [exact Hassign|]. split; [exact Ha|].
  exact (Hb (or_introl eq_refl)).
Defined.

(** C10: with more than one comma in the target list the call raises its
    syntax error at once: the environment and the machine, with its record
    of the commands run, are what they were. *)
Theorem assign_too_many_commas
        (World : Type) (run : string -> env -> World -> run_outcome * World)
        (variable : string) (comm : value) (E : env) (m : machine World) :
  1 < Py.count "," variable ->
  assign_variable World run variable comm E m
  = (Raise (YamlSyntaxError "Max two variables allowed on left side."), E, m).
Proof. apply assign_commas. Qed.

(** The theorem at three targets and a command substitution: the command
    is not run. *)
Lemma assign_too_many_commas_witness :
  1 < Py.count "," "$a,$b,$c"
  /\ assign_variable nat stub_run "$a,$b,$c" (VStr "$(echo hi)") env_foo m0
     = (Raise (YamlSyntaxError "Max two variables allowed on left side."),
        env_foo, m0).
Proof.
  split; [vm_compute; lia|].
  apply (assign_too_many_commas nat stub_run "$a,$b,$c"). vm_compute. lia.
Defined.

(** ** Inversion (C6) *)

(** C6, as stated, fails: the text after the prefix is not stripped again,
    so an expression that begins with white space evaluates on its own and
    is a syntax error behind [not ]; and an expression that itself begins
    with [not ] evaluates on its own and is a syntax error behind a second
    [not ]. *)
Lemma evaluate_not_leading_space :
  evaluate nat stub_run (VStr " $a") env_a m0 = (Ok (true, VStr "x"), m0)
  /\ evaluate nat stub_run (VStr ("not " +:+ " $a")) env_a m0
     = (Raise (YamlSyntaxError "Not a valid expression: not  $a"), m0)
  /\ evaluate nat stub_run (VStr "not $a") env_a m0 = (Ok (false, VStr "x"), m0)
  /\ evaluate nat stub_run (VStr ("not " +:+ "not $a")) env_a m0
     = (Raise (YamlSyntaxError "Not a valid expression: not not $a"), m0).
Proof. repeat split; vm_compute; reflexivity. Qed.

(** C6, amended: for every environment [E] and every text [X] that begins
    neither with white space nor with [not ], if [evaluate(X, E)] returns
    (l, v) then [evaluate("not " + X, E)] returns (not l, v), with the same
    commands run. Exactly one leading [not ] is an inversion: whatever
    follows a second one, [evaluate("not not " + Y, E)] raises the syntax
    error that names the whole expression, and runs no command. *)
Theorem evaluate_not_negates
        (World : Type) (run : string -> env -> World -> run_outcome * World)
        (E : env) (X : string) (m m' : machine World) (l : bool) (v : value) :
  Py.outside Py.isspace (Py.first_char X) ->
  Py.startswith "not " X = false ->
  evaluate World run (VStr X) E m = (Ok (l, v), m') ->
  evaluate World run (VStr ("not " +:+ X)) E m = (Ok (negb l, v), m')
  /\ (forall (Y : string) (E1 : env) (m1 : machine World),
        evaluate World run (VStr ("not not " +:+ Y)) E1 m1
        = (Raise (YamlSyntaxError ("Not a valid expression: not not " +:+ Y)),
           m1)).
Proof.
  intros Hf Hn HX. split.
  - exact (evaluate_not run X E m l v m' Hf Hn HX).
  - intros Y E1 m1. apply evaluate_not_not.
Qed.

(** The theorem at a command substitution that succeeds, and at a second
    [not] in front of a variable. *)
Lemma evaluate_not_negates_witness :
  evaluate nat stub_run (VStr ("not " +:+ "$(echo hi)")) env_a m0
  = (Ok (false, VStr "hi"), Machine 1 ["echo hi"])
  /\ evaluate nat stub_run (VStr ("not not " +:+ "$a")) env_a m0
     = (Raise (YamlSyntaxError "Not a valid expression: not not $a"), m0).
Proof.
  destruct (evaluate_not_negates nat stub_run env_a "$(echo hi)" m0
              (Machine 1 ["echo hi"]) true (VStr "hi")
              eq_refl eq_refl eq_refl) as (Hneg & Hsecond).
  split; [exact Hneg|exact (Hsecond "$a" env_a m0)].
Defined.

(** ** The Loop Iterable Resolver (C7) *)

(** C7: the code does not do what the claim says for every loop header.
    A header whose control variable has two characters or more never
    reaches the conversion: [parse_for] does not match it (the slip of C3)
    and [AttributeError] leaves the resolver. So for [for $var in $foo],
    with [foo] bound to the text [bar baz], the claim gives the tokens
    [bar] and [baz] and the code raises; the same loop with a variable of
    one character gives them. *)
Theorem loop_resolver_rejects_longer_names
        (World : Type) (run : string -> env -> World -> run_outcome * World)
        (m : machine World) :
  evaluate World run (VStr "$foo") env_foo m = (Ok (true, VStr "bar baz"), m)
  /\ get_for_control_var_and_eval_expr World run "for $var in $foo" env_foo m
     = (Raise (AttributeError "'NoneType' object has no attribute 'groups'"),
        m)
  /\ get_for_control_var_and_eval_expr World run "for $v in $foo" env_foo m
     = (Ok (["v"], [VStr "bar"; VStr "baz"]), m).
Proof. repeat split; vm_compute; reflexivity. Qed.

(** ** The Condition Resolver (C8) *)

(** C8: let [skip] be true exactly when a next section exists and its
    keyword is [else]. When the condition after the two characters of the
    [if] marker evaluates to a logical result, the resolver returns
    (0, skip, the body of the if-section) for true, (1, true, the body of
    the else-section) for false with an else-section, and (1, false, no
    section) for false without one. *)
Theorem condition_resolver_branches
        (World : Type) (run : string -> env -> World -> run_outcome * World)
        (Body : Type) (if_header : string) (if_body : Body)
        (next : option (string * Body)) (E : env) (m m' : machine World)
        (skip l : bool) (v : value) :
  (skip = true <-> exists body, next = Some ("else", body)) ->
  evaluate World run (VStr (Py.strip (Py.slice_from 2 if_header))) E m
  = (Ok (l, v), m') ->
  let r := get_section_from_condition World run (if_header, if_body) next E m in
  (l = true -> r = (Ok (0, skip, Some if_body), m'))
  /\ (l = false -> forall else_body, next = Some ("else", else_body) ->
      r = (Ok (1, true, Some else_body), m'))
  /\ (l = false -> skip = false -> r = (Ok (1, false, None), m')).
Proof.
  intros Hskip He r. subst r. unfold get_section_from_condition.
  cbn [fst snd]. rewrite He.
  set (code_skip := match next with
                    | Some (keyword, _) => String.eqb keyword "else"
                    | None => false
                    end).
  assert (code_skip = skip) as ->.
  { subst code_skip. destruct next as [[keyword body]|].
    - destruct (String.eqb_spec keyword "else") as [->|Hne].
      + symmetry. apply Hskip. eauto.
      + destruct skip; [|reflexivity].
        destruct Hskip as [Hs _]. destruct (Hs eq_refl) as [b [= Hk _]].
        contradiction.
    - destruct skip; [|reflexivity].
      destruct Hskip as [Hs _]. now destruct (Hs eq_refl). }
  repeat split.
  - intros ->. reflexivity.
  - intros -> else_body ->.
    assert (skip = true) as -> by (apply Hskip; eauto). reflexivity.
  - intros -> ->. reflexivity.
Qed.

(** The theorem at a true condition, and at a false one with and without
    an else-section. *)
Lemma condition_resolver_branches_witness :
  get_section_from_condition nat stub_run ("if $foo", 10) (Some ("else", 20))
    env_foo m0 = (Ok (0, true, Some 10), m0)
  /\ get_section_from_condition nat stub_run ("if $bar", 10)
       (Some ("else", 20)) env_foo m0 = (Ok (1, true, Some 20), m0)
  /\ get_section_from_condition nat stub_run ("if $bar", 10) None env_foo m0
     = (Ok (1, false, None), m0).
Proof.
  assert (true = true <-> exists body : nat, Some ("else", 20) = Some ("else", body))
    as Helse by (split; [eauto|reflexivity]).
  assert (false = true <-> exists body : nat, @None (string * nat) = Some ("else", body))
    as Hnone by (split; [discriminate|intros [b Hb]; discriminate]).
  split; [|split].
  - destruct (condition_resolver_branches nat stub_run nat "if $foo" 10
                (Some ("else", 20)) env_foo m0 m0 true true (VStr "bar baz")
                Helse eq_refl) as (Hif & _).
    exact (Hif eq_refl).
  - destruct (condition_resolver_branches nat stub_run nat "if $bar" 10
                (Some ("else", 20)) env_foo m0 m0 true false empty_str
                Helse eq_refl) as (_ & Helse_taken & _).
    exact (Helse_taken eq_refl 20 eq_refl).
  - destruct (condition_resolver_branches nat stub_run nat "if $bar" 10
                None env_foo m0 m0 false false empty_str
                Hnone eq_refl) as (_ & _ & Habsent).
    exact (Habsent eq_refl eq_refl).
Defined.

(** ** Variable Naming (C9) *)




(** * Further properties of the code *)

(** ** More facts about [strip] *)

Module StripFacts.
Import Py PyFacts VarName.

Lemma lstrip_split p s : exists w, all p w = true /\ s = w +:+ lstrip p s.
Proof.
  induction s as [|c s (w & Hw & IH)]; [now exists EmptyString|].
  cbn [lstrip]. destruct (p c) eqn:Hc.
  - exists (String c w). cbn [all]. rewrite Hc, Hw, app_cons. now rewrite <- IH.
  - now exists EmptyString.
Qed.

Lemma rstrip_split p s : exists w, all p w = true /\ s = rstrip p s +:+ w.
Proof.
  induction s as [|c s (w & Hw & IH)]; [now exists EmptyString|].
  cbn [rstrip]. destruct (rstrip p s) as [|d r] eqn:Hr.
  - destruct (p c) eqn:Hc.
    + exists (String c w). cbn [all]. rewrite Hc, Hw, app_nil_l.
      rewrite app_nil_l in IH. now rewrite <- IH.
    + exists w. rewrite app_cons. now rewrite <- IH.
  - exists w. rewrite app_cons. now rewrite <- IH.
Qed.

Lemma rstrip_last p s : outside p (last_char (rstrip p s)).
Proof.
  induction s as [|c s IH]; [exact I|].
  cbn [rstrip]. destruct (rstrip p s) as [|d r] eqn:Hr.
  - destruct (p c) eqn:Hc; [exact I|]. exact Hc.
  - rewrite last_char_cons by discriminate. exact IH.
Qed.

(** Every text is a run of strippable characters, what [strip] keeps, and
    another such run. *)
Lemma strip_by_split p s :
  exists w1 w2, all p w1 = true /\ all p w2 = true
    /\ s = w1 +:+ strip_by p s +:+ w2.
Proof.
  destruct (lstrip_split p s) as (w1 & H1 & E1).
  destruct (rstrip_split p (lstrip p s)) as (w2 & H2 & E2).
  exists w1, w2. unfold strip_by. now rewrite <- E2, <- E1.
Qed.

Lemma strip_by_first p s : outside p (first_char (strip_by p s)).
Proof. apply rstrip_first, lstrip_first. Qed.

Lemma strip_by_last p s : outside p (last_char (strip_by p s)).
Proof. apply rstrip_last. Qed.

(** Strippable characters around a text do not change what [strip] keeps. *)
Lemma strip_by_pad p w1 s w2 :
  all p w1 = true -> all p w2 = true ->
  strip_by p (w1 +:+ s +:+ w2) = strip_by p s.
Proof.
  intros H1 H2.
  destruct (strip_by_split p s) as (u1 & u2 & Hu1 & Hu2 & E).
  rewrite E at 1.
  replace (w1 +:+ (u1 +:+ strip_by p s +:+ u2) +:+ w2)
    with ((w1 +:+ u1) +:+ strip_by p s +:+ (u2 +:+ w2))
    by now rewrite !app_assoc.
  apply strip_by_sandwich; auto using strip_by_first, strip_by_last.
  - clear -H1 Hu1. induction w1 as [|c w IH]; [exact Hu1|].
    cbn [all] in H1. apply andb_true_iff in H1 as [Hc Hw].
    rewrite app_cons. cbn [all]. rewrite Hc. auto.
  - clear -H2 Hu2. induction u2 as [|c w IH]; [exact H2|].
    cbn [all] in Hu2. apply andb_true_iff in Hu2 as [Hc Hw].
    rewrite app_cons. cbn [all]. rewrite Hc. auto.
Qed.

Lemma rstrip_prefix p pre s :
  rstrip p s <> EmptyString -> rstrip p (pre +:+ s) = pre +:+ rstrip p s.
Proof.
  intros Hs. induction pre as [|c pre IH]; [reflexivity|].
  rewrite !app_cons. rewrite rstrip_cons_nonempty; rewrite IH; [reflexivity|].
  now apply app_nonempty_r.
Qed.

(** [strip] after [rstrip] is [strip]. *)
Lemma strip_by_rstrip p s : strip_by p (rstrip p s) = strip_by p s.
Proof.
  destruct (rstrip_split p s) as (w & Hw & E).
  rewrite E at 2.
  rewrite <- (app_nil_l (rstrip p s +:+ w)).
  rewrite (strip_by_pad p EmptyString (rstrip p s) w); auto.
Qed.

Lemma drop_last_snoc s d : drop_last (s +:+ String d EmptyString) = s.
Proof.
  induction s as [|c s IH]; [reflexivity|].
  rewrite app_cons. cbn [drop_last]. rewrite IH.
  destruct s; reflexivity.
Qed.

End StripFacts.

(** ** More facts about [evaluate] *)

Section MoreEvaluate.
Import Py PyFacts VarName StripFacts.
Context {World : Type}.
Variable run_command : string -> env -> World -> run_outcome * World.
#[local] Abbreviation eval := (evaluate World run_command).

Lemma get_var_name_same_strip a b name :
  strip a = strip b -> get_var_name a = Ok name -> get_var_name b = Ok name.
Proof.
  unfold get_var_name. intros ->. destruct (negb _); [discriminate|trivial].
Qed.

Lemma get_var_name_rstrip_nonempty t name :
  get_var_name t = Ok name -> rstrip isspace t <> EmptyString.
Proof.
  intros Hn Hr. revert Hn. unfold get_var_name, strip.
  rewrite <- strip_by_rstrip, Hr. discriminate.
Qed.

(** The result of a text that evaluates depends on what [strip] keeps of it
    only. *)
Lemma evaluate_same_strip X Y (E : env) m r m' :
  strip X = strip Y ->
  eval (VStr X) E m = (Ok r, m') -> eval (VStr Y) E m = (Ok r, m').
Proof.
  unfold evaluate. intros ->.
  destruct (startswith "$(" _); [trivial|].
  destruct (_ || _); [trivial|].
  destruct (startswith "defined " _); [trivial|discriminate].
Qed.

Lemma evaluate_token t name (E : env) m :
  startswith "$" (strip t) || startswith (String dquote "$") (strip t) = true ->
  startswith "$(" (strip t) = false ->
  get_var_name t = Ok name ->
  eval (VStr t) E m = (Ok (var_result (E !! name)), m).
Proof.
  intros Hd Hp Hn. unfold evaluate.
  assert (startswith "not " (strip t) = false) as ->.
  { destruct (strip t) as [|c r]; [reflexivity|]. cbn [startswith] in *.
    destruct (Ascii.eqb_spec "n" c) as [<-|]; [discriminate|reflexivity]. }
  cbv iota. rewrite Hp, Hd.
  rewrite (get_var_name_same_strip t (strip t) name); auto.
  - unfold var_result. destruct (E !! name) as [v|]; [destruct (truthy v)|];
      reflexivity.
  - unfold strip. now rewrite strip_by_idem.
Qed.

Lemma strip_defined t :
  rstrip isspace t <> EmptyString ->
  strip ("defined " +:+ t) = "defined " +:+ rstrip isspace t.
Proof.
  intros Hr. unfold strip, strip_by.
  rewrite lstrip_outside by exact eq_refl.
  now apply rstrip_prefix.
Qed.

Lemma evaluate_defined t name (E : env) m :
  get_var_name t = Ok name ->
  eval (VStr ("defined " +:+ t)) E m
  = (Ok (bool_decide (is_Some (E !! name)), default empty_str (E !! name)), m).
Proof.
  intros Hn. unfold evaluate.
  rewrite (strip_defined t (get_var_name_rstrip_nonempty t name Hn)).
  set (Y := rstrip isspace t).
  change (startswith "not " ("defined " +:+ Y)) with false. cbv iota.
  change (startswith "$(" ("defined " +:+ Y)) with false. cbv iota.
  change (startswith "$" ("defined " +:+ Y)) with false.
  change (startswith (String dquote "$") ("defined " +:+ Y)) with false.
  cbn [orb]. change (startswith "defined " ("defined " +:+ Y)) with true.
  cbv iota. change (slice_from 8 ("defined " +:+ Y)) with Y.
  rewrite (get_var_name_same_strip t Y name); auto.
  unfold Y, strip. now rewrite strip_by_rstrip.
Qed.

Lemma evaluate_command c d (E : env) m :
  isspace d = false ->
  eval (VStr ("$(" +:+ c +:+ String d EmptyString)) E m
  = (Ok (run_ok (cl_n World run_command c E m).1,
         run_output (cl_n World run_command c E m).1),
     (cl_n World run_command c E m).2).
Proof.
  intros Hd. unfold evaluate.
  assert (strip ("$(" +:+ c +:+ String d EmptyString)
          = String "$" (String "(" (c +:+ String d EmptyString))) as ->.
  { unfold strip, strip_by. rewrite lstrip_outside by exact eq_refl.
    apply rstrip_outside.
    change ("$(" +:+ c +:+ String d EmptyString)
      with (String "$" (String "(" (c +:+ String d EmptyString))).
    rewrite last_char_cons by discriminate.
    rewrite last_char_cons by (apply app_nonempty_r; discriminate).
    rewrite last_char_app by discriminate. exact Hd. }
  set (s := c +:+ String d EmptyString).
  change (startswith "not " (String "$" (String "(" s))) with false.
  cbv iota. change (startswith "$(" (String "$" (String "(" s))) with true.
  cbv iota. change (slice_2_m1 (String "$" (String "(" s))) with (drop_last s).
  unfold s. rewrite drop_last_snoc.
  destruct (cl_n World run_command c E m) as [[o|o] m1]; reflexivity.
Qed.

Lemma evaluate_raise X (E : env) m e m' :
  eval X E m = (Raise e, m') -> is_syntax_error e = true /\ m' = m.
Proof.
  unfold evaluate. destruct X; try discriminate.
  destruct (startswith "$(" _).
  { destruct (cl_n _ _ _ _ _) as [[o|o] m2]; discriminate. }
  destruct (_ || _).
  { unfold get_var_name. destruct (negb _); [now intros [= <- <-]|].
    destruct (E !! _) as [w|]; [destruct (truthy w)|]; discriminate. }
  destruct (startswith "defined " _); [|now intros [= <- <-]].
  unfold get_var_name. destruct (negb _); [now intros [= <- <-]|discriminate].
Qed.

Lemma evaluate_calls X (E : env) m r m' :
  eval X E m = (r, m') -> at_most_one m m'.
Proof.
  unfold at_most_one, evaluate. destruct X; try (intros [= _ <-]; now left).
  destruct (startswith "$(" _).
  { unfold cl_n. destruct (run_command _ _ _) as [[o|o] w];
      intros [= _ <-]; right; eexists; reflexivity. }
  destruct (_ || _).
  { destruct (get_var_name _); [|intros [= _ <-]; now left].
    destruct (E !! _) as [w|]; [destruct (truthy w)|];
      intros [= _ <-]; now left. }
  destruct (startswith "defined " _); [|intros [= _ <-]; now left].
  destruct (get_var_name _); intros [= _ <-]; now left.
Qed.

End MoreEvaluate.

(** ** Facts about [split] and [count] *)

Module SplitFacts.
Import Py PyFacts.

Lemma count_app c s t : count c (s +:+ t) = count c s + count c t.
Proof.
  induction s as [|a s IH]; [reflexivity|].
  rewrite app_cons. cbn [count]. rewrite IH. lia.
Qed.

Lemma split_on_none c s : count c s = 0 -> split_on c s = [s].
Proof.
  induction s as [|a s IH]; [reflexivity|].
  cbn [count split_on]. destruct (Ascii.eqb a c); [discriminate|].
  intros H. now rewrite IH.
Qed.

Lemma split_on_pair c s t :
  count c s = 0 -> count c t = 0 ->
  split_on c (s +:+ String c t) = [s; t].
Proof.
  intros Hs Ht. induction s as [|a s IH].
  - rewrite app_nil_l. cbn [split_on]. rewrite Ascii.eqb_refl.
    now rewrite split_on_none.
  - cbn [count] in Hs. rewrite app_cons. cbn [split_on].
    destruct (Ascii.eqb a c); [discriminate|]. now rewrite IH.
Qed.

Lemma count_pair c s t :
  count c s = 0 -> count c t = 0 -> count c (s +:+ String c t) = 1.
Proof.
  intros Hs Ht. rewrite count_app. cbn [count].
  rewrite Ascii.eqb_refl. lia.
Qed.

End SplitFacts.

Section MoreOperations.
Import Py PyFacts VarName StripFacts SplitFacts.
Context {World : Type}.
Variable run_command : string -> env -> World -> run_outcome * World.
#[local] Abbreviation eval := (evaluate World run_command).
#[local] Abbreviation assign := (assign_variable World run_command).
#[local] Abbreviation resolve :=
  (get_for_control_var_and_eval_expr World run_command).
#[local] Abbreviation condition :=
  (get_section_from_condition World run_command).

Lemma assign_one t name X (E : env) m l v m1 :
  count "," t = 0 -> get_var_name t = Ok name ->
  eval X E m = (Ok (l, v), m1) ->
  assign t X E m = (Ok tt, <[name := v]> E, m1).
Proof.
  intros Hc Hn HX. unfold assign_variable. rewrite Hc, HX. cbn. now rewrite Hn.
Qed.

Lemma assign_two t1 t2 n1 n2 X (E : env) m l v m1 :
  count "," t1 = 0 -> count "," t2 = 0 ->
  get_var_name t1 = Ok n1 -> get_var_name t2 = Ok n2 ->
  eval X E m = (Ok (l, v), m1) ->
  assign (t1 +:+ String "," t2) X E m
  = (Ok tt, <[n2 := v]> (<[n1 := VBool l]> E), m1).
Proof.
  intros H1 H2 Hn1 Hn2 HX. unfold assign_variable.
  rewrite (count_pair _ _ _ H1 H2), HX. cbn [Nat.ltb Nat.leb Nat.eqb].
  rewrite (split_on_pair _ _ _ H1 H2). cbn [map]. now rewrite Hn1, Hn2.
Qed.

(** With at most one comma the right-hand side is evaluated whatever the
    targets are. *)
Lemma assign_machine variable X (E : env) m :
  count "," variable <= 1 ->
  (assign variable X E m).2 = (eval X E m).2.
Proof.
  intros Hc. unfold assign_variable.
  apply Nat.ltb_ge in Hc. rewrite Hc.
  destruct (eval X E m) as [[[l v]|e] m1]; [|reflexivity].
  destruct (count "," variable =? 1).
  - destruct (map get_var_name (split_on "," variable))
      as [|[?|?] [|[?|?] [|? ?]]]; reflexivity.
  - destruct (get_var_name variable); reflexivity.
Qed.

Lemma condition_raise {Body : Type} (if_section : string * Body) next
      (E : env) m e m' :
  condition if_section next E m = (Raise e, m') ->
  is_syntax_error e = true /\ m' = m
  /\ eval (VStr (strip (slice_from 2 if_section.1))) E m = (Raise e, m).
Proof.
  unfold get_section_from_condition.
  destruct (eval _ E m) as [[[l v]|e0] m1] eqn:He.
  - destruct l; [discriminate|].
    destruct next as [[keyword body]|]; [|discriminate].
    destruct (String.eqb keyword "else"); discriminate.
  - intros [= <- <-]. destruct (evaluate_raise run_command _ _ _ _ _ He) as [? ->].
    auto.
Qed.

End MoreOperations.

(** ** What a parsed header looks like *)

Module HeaderShape.
Import Py PyFacts VarName Re ReFacts ForHeader.

Lemma captures_header : captures header_group for_regex.
Proof. cbn. repeat split; auto. Qed.

Lemma nonspace_dot c : nonspace c = true -> dot c = true.
Proof. destruct c as [[] [] [] [] [] [] [] []]; now vm_compute. Qed.

Lemma lang_expr e :
  lang (Seq (Cls nonspace) (Plus dot)) e ->
  2 <= String.length e /\ outside isspace (first_char e) /\ all dot e = true.
Proof.
  cbn. intros (m1 & m2 & -> & (c0 & H0 & ->) & m3 & m4 & -> & (c1 & H1 & ->) & H4).
  rewrite !app_cons, !app_nil_l. cbn [String.length first_char outside all].
  rewrite (nonspace_dot _ H0), H1, H4.
  unfold nonspace in H0. apply negb_true_iff in H0.
  split; [simpl; lia|]. split; [exact H0|reflexivity].
Qed.

Lemma var_name_short o1 c o2 :
  (o1 = EmptyString \/ o1 = "{") -> nonspace c = true ->
  (o2 = EmptyString \/ o2 = "}") ->
  exists name,
    get_var_name ("$" +:+ o1 +:+ String c EmptyString +:+ o2) = Ok name
    /\ String.length name <= 1.
Proof.
  intros [-> | ->] Hc [-> | ->];
    destruct c as [[] [] [] [] [] [] [] []]; try discriminate Hc;
    match goal with
    | |- exists name, ?g = Ok name /\ _ =>
        let r := eval vm_compute in g in
        match r with
        | Ok ?n => exists n; split; [vm_compute; reflexivity|vm_compute; lia]
        end
    end.
Qed.

Lemma lang_for_var_name t :
  lang for_var t ->
  exists name, get_var_name t = Ok name /\ String.length name <= 1.
Proof.
  cbn. intros (m1 & m2 & -> & -> & m3 & m4 & -> & H3 & m5 & m6 & -> &
               (c & Hc & ->) & H6).
  apply var_name_short; auto.
Qed.

Lemma match_header_groups header g :
  match_ for_regex header = Some g ->
  startswith "for" header = true
  /\ (exists t, g 1 = Some t /\ lang for_var t)
  /\ (g 2 = None \/ exists t, g 2 = Some t /\ lang for_var t)
  /\ (exists e, g 3 = Some e /\ header_group 3 e).
Proof.
  unfold match_. intros Hrun.
  apply (run_sound header_group _ captures_header) in Hrun
    as (m & s' & g' & -> & Hl & Hg' & Hs & [= <-]); [|discriminate].
  split; [|split; [|split]].
  - cbn in Hl. destruct Hl as (m1 & m2 & -> & (a & b & -> & -> & c & d & -> & -> & e & f & -> & -> & ->) & _).
    reflexivity.
  - destruct (g' 1) as [t|] eqn:H1; [|now destruct (Hs 1 (or_introl eq_refl))].
    exists t. split; [reflexivity|]. exact (Hg' 1 t H1).
  - destruct (g' 2) as [t|] eqn:H2; [right|now left].
    exists t. split; [reflexivity|]. exact (Hg' 2 t H2).
  - destruct (g' 3) as [t|] eqn:H3; [|now destruct (Hs 3 (or_introl eq_refl))].
    exists t. split; [reflexivity|]. exact (Hg' 3 t H3).
Qed.

Lemma parse_for_shape header cvs expr :
  parse_for header = Ok (cvs, expr) ->
  startswith "for" header = true
  /\ (length cvs = 1 \/ length cvs = 2)
  /\ Forall (fun name => String.length name <= 1) cvs
  /\ 2 <= String.length expr
  /\ outside isspace (first_char expr)
  /\ all dot expr = true.
Proof.
  unfold parse_for.
  destruct (match_ for_regex header) as [g|] eqn:Hm; [|discriminate].
  apply match_header_groups in Hm
    as (Hfor & (t1 & H1 & L1) & H2 & (e & H3 & L3)).
  cbn [groups_of]. rewrite H1, H3. cbn [get_var_name_group group_text].
  destruct (lang_for_var_name _ L1) as (n1 & -> & Hn1).
  apply lang_expr in L3 as (He1 & He2 & He3).
  destruct H2 as [-> | (t2 & -> & L2)]; cbn [group_truthy get_var_name_group].
  - intros [= <- <-]. repeat split; auto.
  - destruct (lang_for_var_name _ L2) as (n2 & -> & Hn2).
    destruct (negb _); intros [= <- <-]; repeat split; auto.
Qed.

End HeaderShape.

(** ** The operations composed *)

Section Compositions.
Import Py PyFacts VarName StripFacts SplitFacts ForHeader HeaderShape.
Context {World : Type}.
Variable run_command : string -> env -> World -> run_outcome * World.
#[local] Abbreviation eval := (evaluate World run_command).
#[local] Abbreviation resolve :=
  (get_for_control_var_and_eval_expr World run_command).
#[local] Abbreviation condition :=
  (get_section_from_condition World run_command).

(** A loop over a command substitution iterates over the words of what the
    command printed, whether it succeeded or not. *)
Lemma resolve_command w1 b v w2 w3 c d (E : env) m text :
  all isspace w1 = true -> w1 <> EmptyString ->
  all isspace w2 = true -> w2 <> EmptyString ->
  all isspace w3 = true -> w3 <> EmptyString ->
  plain_char v = true ->
  all Re.dot c = true -> Re.dot d = true -> isspace d = false ->
  run_output (cl_n World run_command c E m).1 = VStr text ->
  resolve ("for" +:+ w1 +:+ var_token b v +:+ w2 +:+ "in" +:+ w3
           +:+ "$(" +:+ c +:+ String d EmptyString) E m
  = (Ok ([String v EmptyString], map VStr (split text)),
     (cl_n World run_command c E m).2).
Proof.
  intros Hw1 Hn1 Hw2 Hn2 Hw3 Hn3 Hv Hc Hd Hds Hout.
  unfold get_for_control_var_and_eval_expr.
  rewrite parse_for_one_variable; try assumption.
  - rewrite (evaluate_command run_command c d E m Hds), Hout. reflexivity.
  - exact eq_refl.
  - change ("$(" +:+ c +:+ String d EmptyString)
      with (String "$" (String "(" (c +:+ String d EmptyString))).
    cbn [all]. change (Re.dot "$" && (Re.dot "(" && ?x)) with x.
    clear -Hc Hd. induction c as [|a c IH].
    + rewrite app_nil_l. cbn [all]. now rewrite Hd.
    + cbn [all] in Hc. apply andb_true_iff in Hc as [Ha Hc].
      rewrite app_cons. cbn [all]. rewrite Ha. auto.
  - change ("$(" +:+ c +:+ String d EmptyString)
      with (String "$" (String "(" (c +:+ String d EmptyString))).
    cbn [String.length]. lia.
Qed.

(** A loop with two control variables over a variable bound to a
    dictionary: its items, unless it is empty. An empty dictionary is falsy,
    so the variable evaluates to the empty text, which is no dictionary. *)
Lemma resolve_dict w1 b1 k w4 w5 b2 v w2 w3 n d (E : env) m :
  all isspace w1 = true -> w1 <> EmptyString ->
  all isspace w4 = true ->
  all isspace w5 = true -> w5 <> EmptyString ->
  all isspace w2 = true -> w2 <> EmptyString ->
  all isspace w3 = true -> w3 <> EmptyString ->
  plain_char k = true -> plain_char v = true ->
  n <> EmptyString -> all Re.dot n = true ->
  startswith "(" n = false -> get_var_name (String "$" n) = Ok n ->
  E !! n = Some (VDict d) ->
  resolve ("for" +:+ w1 +:+ var_token b1 k +:+ w4 +:+ "," +:+ w5
           +:+ var_token b2 v +:+ w2 +:+ "in" +:+ w3 +:+ String "$" n) E m
  = (match d with
     | [] => Raise (YamlSyntaxError
                      "Can't expand <class 'str'> to two control variables.")
     | _ => Ok ([String k EmptyString; String v EmptyString], map item d)
     end, m).
Proof.
  intros Hw1 Hn1 Hw4 Hw5 Hn5 Hw2 Hn2 Hw3 Hn3 Hk Hv Hne Hdot Hp Hn HE.
  unfold get_for_control_var_and_eval_expr.
  rewrite parse_for_two_variables; try assumption.
  - rewrite (evaluate_variable run_command n E m Hp Hn), HE.
    destruct d; reflexivity.
  - exact eq_refl.
  - destruct n; [contradiction|]. cbn [String.length]. lia.
Qed.

(** Every error of the resolver: a header that does not match, the unbound
    [logger] behind a syntax error of the evaluation, or a value that is no
    dictionary where two control variables are declared. *)
Lemma resolve_raise header (E : env) m e m' :
  resolve header E m = (Raise e, m') ->
  (e = AttributeError "'NoneType' object has no attribute 'groups'" /\ m' = m)
  \/ (e = NameError "name 'logger' is not defined" /\ m' = m)
  \/ (exists v, e = YamlSyntaxError ("Can't expand " +:+ type_repr v
                                     +:+ " to two control variables.")).
Proof.
  unfold get_for_control_var_and_eval_expr.
  destruct (parse_for_outcome header) as [-> | (cvs & expr & ->)].
  { intros [= <- <-]. now left. }
  destruct (eval (VStr expr) E m) as [[[l v]|e0] m1] eqn:He.
  - destruct (length cvs =? 2).
    + intros H. right. right. exists v. destruct v; inversion H; reflexivity.
    + destruct v; discriminate.
  - destruct (evaluate_raise run_command _ _ _ _ _ He) as [Hs ->].
    destruct e0; try discriminate Hs. intros [= <- <-]. right. now left.
Qed.

(** An if-section whose condition is a variable token. *)
Lemma condition_token {Body : Type} t name (body : Body) next (E : env) m :
  startswith "$" (strip t) || startswith (String dquote "$") (strip t) = true ->
  startswith "$(" (strip t) = false ->
  get_var_name t = Ok name ->
  condition ("if" +:+ t, body) next E m
  = (Ok (match next with
         | Some (keyword, else_body) =>
             if (var_result (E !! name)).1
             then (0, String.eqb keyword "else", Some body)
             else if String.eqb keyword "else" then (1, true, Some else_body)
                  else (1, false, None)
         | None =>
             if (var_result (E !! name)).1 then (0, false, Some body)
             else (1, false, None)
         end), m).
Proof.
  intros Hd Hp Hn. unfold get_section_from_condition. cbn [fst snd].
  change (slice_from 2 ("if" +:+ t)) with t.
  rewrite (evaluate_token run_command (strip t) name E m).
  - destruct (var_result (E !! name)) as [[] w]; cbn [fst];
      destruct next as [[keyword else_body]|]; [|reflexivity| |reflexivity];
      destruct (String.eqb keyword "else"); reflexivity.
  - unfold strip. now rewrite strip_by_idem.
  - unfold strip. now rewrite strip_by_idem.
  - apply (get_var_name_same_strip t); [|assumption].
    unfold strip. now rewrite strip_by_idem.
Qed.

End Compositions.

Section CommandFacts.
Import Py PyFacts VarName StripFacts SplitFacts.
Context {World : Type}.
Variable run_command : string -> env -> World -> run_outcome * World.
#[local] Abbreviation eval := (evaluate World run_command).
#[local] Abbreviation assign := (assign_variable World run_command).
#[local] Abbreviation resolve :=
  (get_for_control_var_and_eval_expr World run_command).
#[local] Abbreviation condition :=
  (get_section_from_condition World run_command).

Lemma get_var_name_raise_kind t e :
  get_var_name t = Raise e -> is_syntax_error e = true.
Proof.
  unfold get_var_name. destruct (negb _); [now intros [= <-]|discriminate].
Qed.

Lemma assign_raise_kind variable comm (E E' : env) m m' e :
  assign variable comm E m = (Raise e, E', m') ->
  E' = E /\ is_syntax_error e = true.
Proof.
  intros H. split; [exact (proj1 (assign_raise run_command _ _ _ _ _ _ _ H))|].
  revert H. unfold assign_variable.
  destruct (1 <? count "," variable); [now intros [= <- _ _]|].
  destruct (eval comm E m) as [[[res1 res2]|e0] m1] eqn:He.
  - destruct (Nat.eqb_spec (count "," variable) 1) as [H1|_].
    + destruct (split_on_one_comma _ H1) as (v1 & v2 & ->). cbn [map].
      destruct (get_var_name v1) as [n1|e1] eqn:G1.
      * destruct (get_var_name v2) as [n2|e2] eqn:G2; [discriminate|].
        intros [= <- _ _]. exact (get_var_name_raise_kind _ _ G2).
      * intros [= <- _ _]. exact (get_var_name_raise_kind _ _ G1).
    + destruct (get_var_name variable) as [n|e1] eqn:G; [discriminate|].
      intros [= <- _ _]. exact (get_var_name_raise_kind _ _ G).
  - intros [= <- _ _]. exact (proj1 (evaluate_raise run_command _ _ _ _ _ He)).
Qed.

Lemma at_most_one_refl (m : machine World) : at_most_one m m.
Proof. now left. Qed.

Lemma condition_machine {Body : Type} (s : string * Body) next (E : env) m :
  (condition s next E m).2
  = (eval (VStr (strip (slice_from 2 s.1))) E m).2.
Proof.
  unfold get_section_from_condition.
  destruct (eval _ E m) as [[[[] v]|e] m1]; [reflexivity| |reflexivity].
  destruct next as [[keyword body]|]; [|reflexivity].
  destruct (String.eqb keyword "else"); reflexivity.
Qed.

Lemma resolve_machine header (E : env) m :
  at_most_one m (resolve header E m).2.
Proof.
  unfold get_for_control_var_and_eval_expr.
  destruct (parse_for header) as [[cvs expr]|[]]; try apply at_most_one_refl.
  destruct (eval (VStr expr) E m) as [[[l v]|e] m1] eqn:He;
    pose proof (evaluate_calls run_command _ _ _ _ _ He) as Hc.
  - destruct (length cvs =? 2); destruct v; exact Hc.
  - destruct e; exact Hc.
Qed.

Lemma assign_at_most_one variable X (E : env) m :
  at_most_one m (assign variable X E m).2.
Proof.
  destruct (Nat.le_gt_cases (count "," variable) 1) as [Hc|Hc].
  - rewrite (assign_machine run_command _ _ _ _ Hc).
    destruct (eval X E m) as [r m1] eqn:He.
    exact (evaluate_calls run_command _ _ _ _ _ He).
  - rewrite (assign_commas run_command _ _ _ _ Hc). apply at_most_one_refl.
Qed.

End CommandFacts.

(** ** Properties of [evaluate] *)

(** X1: for every token that Variable Naming accepts, [defined <token>]
    reports whether the name is bound, whatever it is bound to, with the
    bound value itself as the value (the empty text when not bound); no
    command is run. *)
Theorem evaluate_defined_reports_presence
        (World : Type) (run : string -> env -> World -> run_outcome * World)
        (t name : string) (E : env) (m : machine World) :
  get_var_name t = Ok name ->
  (forall v, E !! name = Some v ->
     evaluate World run (VStr ("defined " +:+ t)) E m = (Ok (true, v), m))
  /\ (E !! name = None ->
      evaluate World run (VStr ("defined " +:+ t)) E m
      = (Ok (false, empty_str), m)).
Proof.
  intros Hn. rewrite (evaluate_defined run t name E m Hn).
  split; [intros v ->|intros ->]; reflexivity.
Qed.

(** The theorem at a name bound to the empty text: defined, though falsy. *)
Lemma evaluate_defined_reports_presence_witness :
  evaluate nat stub_run (VStr ("defined " +:+ "${e}")) env_e m0
  = (Ok (true, empty_str), m0).
Proof.
  destruct (evaluate_defined_reports_presence nat stub_run "${e}" "e" env_e m0
              eq_refl) as (Hbound & _).
  exact (Hbound empty_str eq_refl).
Defined.

(** X2: an expression that, past its white space, begins with the dollar
    sign (but not with [$(]) or with a double quote and the dollar sign is a
    variable: it is looked up under the name Variable Naming gives the whole
    token, quotes and braces removed, and reports (true, value) for a truthy
    binding and (false, '') otherwise. *)
Theorem evaluate_token_lookup
        (World : Type) (run : string -> env -> World -> run_outcome * World)
        (t name : string) (E : env) (m : machine World) :
  Py.startswith "$" (Py.strip t)
  || Py.startswith (String dquote "$") (Py.strip t) = true ->
  Py.startswith "$(" (Py.strip t) = false ->
  get_var_name t = Ok name ->
  evaluate World run (VStr t) E m = (Ok (var_result (E !! name)), m).
Proof. apply evaluate_token. Qed.

(** The theorem at the token [foo] in braces, double quotes and spaces. *)
Lemma evaluate_token_lookup_witness :
  evaluate nat stub_run
    (VStr (" " +:+ String dquote "${foo}" +:+ String dquote " ")) env_foo m0
  = (Ok (true, VStr "bar baz"), m0).
Proof.
  apply (evaluate_token_lookup nat stub_run
           (" " +:+ String dquote "${foo}" +:+ String dquote " ")
           "foo" env_foo m0);
    reflexivity.
Defined.

(** X3: a command substitution never raises. The text between [$(] and the
    last character, which is dropped whatever it is, is run once; the
    logical result tells whether the runner returned, and the value is the
    output in both cases. *)
Theorem evaluate_command_substitution
        (World : Type) (run : string -> env -> World -> run_outcome * World)
        (c : string) (d : ascii) (E : env) (m : machine World)
        (out : run_outcome) (w : World) :
  Py.isspace d = false ->
  run c E (world m) = (out, w) ->
  evaluate World run (VStr ("$(" +:+ c +:+ String d EmptyString)) E m
  = (Ok (run_ok out, run_output out), Machine w (calls m ++ [c])).
Proof.
  intros Hd Hrun. rewrite (evaluate_command run c d E m Hd).
  unfold cl_n. now rewrite Hrun.
Qed.

(** The theorem at a failing command, closed by a bracket that is not a
    parenthesis. *)
Lemma evaluate_command_substitution_witness :
  evaluate nat stub_run (VStr ("$(" +:+ "false" +:+ "]")) ∅ m0
  = (Ok (false, empty_str), Machine 1 ["false"]).
Proof.
  apply (evaluate_command_substitution nat stub_run "false" "]" ∅ m0
           (RunException empty_str) 1);
    reflexivity.
Defined.

(** X4: [evaluate] raises nothing but the syntax error, and when it raises
    no command has been run. *)
Theorem evaluate_raises_only_syntax_errors
        (World : Type) (run : string -> env -> World -> run_outcome * World)
        (X : value) (E : env) (m m' : machine World) (e : exn) :
  evaluate World run X E m = (Raise e, m') ->
  is_syntax_error e = true /\ m' = m.
Proof. apply evaluate_raise. Qed.

(** The theorem at a text that no rule accepts. *)
Lemma evaluate_raises_only_syntax_errors_witness :
  is_syntax_error (YamlSyntaxError "Not a valid expression: foo") = true
  /\ m0 = m0.
Proof.
  apply (evaluate_raises_only_syntax_errors nat stub_run (VStr "foo") ∅ m0 m0
           (YamlSyntaxError "Not a valid expression: foo")).
  reflexivity.
Defined.

(** X5: every operation runs at most one command: the machine it leaves is
    the one it was given, or has exactly one more command on record. *)
Theorem operations_run_at_most_one_command
        (World : Type) (run : string -> env -> World -> run_outcome * World)
        (Body : Type) (X : value) (header variable : string)
        (if_section : string * Body) (next : option (string * Body))
        (E : env) (m : machine World) :
  at_most_one m (evaluate World run X E m).2
  /\ at_most_one m (get_section_from_condition World run if_section next E m).2
  /\ at_most_one m (get_for_control_var_and_eval_expr World run header E m).2
  /\ at_most_one m (assign_variable World run variable X E m).2.
Proof.
  split; [|split; [|split]].
  - destruct (evaluate World run X E m) as [r m'] eqn:He.
    exact (evaluate_calls run _ _ _ _ _ He).
  - rewrite condition_machine.
    destruct (evaluate World run _ E m) as [r m'] eqn:He.
    exact (evaluate_calls run _ _ _ _ _ He).
  - apply resolve_machine.
  - apply assign_at_most_one.
Qed.

(** X6: a second [not] is never accepted: whatever follows, [not not ...]
    is a syntax error that names the whole expression, and no command is
    run. *)
Theorem evaluate_double_negation_rejected
        (World : Type) (run : string -> env -> World -> run_outcome * World)
        (X : string) (E : env) (m : machine World) :
  evaluate World run (VStr ("not not " +:+ X)) E m
  = (Raise (YamlSyntaxError ("Not a valid expression: not not " +:+ X)), m).
Proof. apply evaluate_not_not. Qed.

(** X7: white space around an expression that evaluates changes neither its
    result nor the commands run. *)
Theorem evaluate_ignores_surrounding_space
        (World : Type) (run : string -> env -> World -> run_outcome * World)
        (w1 X w2 : string) (E : env) (m m' : machine World)
        (r : bool * value) :
  Py.all Py.isspace w1 = true -> Py.all Py.isspace w2 = true ->
  evaluate World run (VStr X) E m = (Ok r, m') ->
  evaluate World run (VStr (w1 +:+ X +:+ w2)) E m = (Ok r, m').
Proof.
  intros H1 H2. apply evaluate_same_strip. symmetry.
  now apply StripFacts.strip_by_pad.
Qed.

(** The theorem at a negated variable between a tabulation and a newline. *)
Lemma evaluate_ignores_surrounding_space_witness :
  evaluate nat stub_run
    (VStr (String "009" EmptyString +:+ "not $foo" +:+ String "010" EmptyString))
    env_foo m0
  = (Ok (false, VStr "bar baz"), m0).
Proof.
  apply (evaluate_ignores_surrounding_space nat stub_run
           (String "009" EmptyString) "not $foo" (String "010" EmptyString)
           env_foo m0 m0 (false, VStr "bar baz"));
    reflexivity.
Defined.

(** ** Properties of [get_var_name] *)

(** X8: a name that Variable Naming returns neither begins nor ends with a
    brace. *)
Theorem get_var_name_result_has_no_outer_brace (t name : string) :
  get_var_name t = Ok name ->
  Py.outside is_brace (Py.first_char name)
  /\ Py.outside is_brace (Py.last_char name).
Proof.
  unfold get_var_name. destruct (negb _); [discriminate|].
  intros [= <-]. split.
  - apply StripFacts.strip_by_first.
  - apply StripFacts.strip_by_last.
Qed.

(** The theorem at a token with unbalanced braces. *)
Lemma get_var_name_result_has_no_outer_brace_witness :
  Py.outside is_brace (Py.first_char "a{b")
  /\ Py.outside is_brace (Py.last_char "a{b").
Proof.
  apply (get_var_name_result_has_no_outer_brace "$}{a{b}}}" "a{b").
  reflexivity.
Defined.

(** ** Properties of [assign_variable] *)

(** X9: one target. For a target token without comma that Variable Naming
    accepts, and an expression that evaluates to (l, v), the call binds the
    name to [v], leaves every other name as it was, and [defined <target>]
    then reads back exactly [v], falsy or not. *)
Theorem assign_one_target_round_trip
        (World : Type) (run : string -> env -> World -> run_outcome * World)
        (t name : string) (X : value) (E : env) (m m1 : machine World)
        (l : bool) (v : value) :
  Py.count "," t = 0 ->
  get_var_name t = Ok name ->
  evaluate World run X E m = (Ok (l, v), m1) ->
  exists E' : env,
    assign_variable World run t X E m = (Ok tt, E', m1)
    /\ E' !! name = Some v
    /\ (forall other, other <> name -> E' !! other = E !! other)
    /\ evaluate World run (VStr ("defined " +:+ t)) E' m1 = (Ok (true, v), m1).
Proof.
  intros Hc Hn HX. exists (<[name := v]> E).
  split; [exact (assign_one run t name X E m l v m1 Hc Hn HX)|].
  split; [apply lookup_insert_eq|].
  split; [intros other Ho; now apply lookup_insert_ne|].
  rewrite (evaluate_defined run t name _ m1 Hn), lookup_insert_eq.
  reflexivity.
Qed.

(** The theorem at the empty list as the expression. *)
Lemma assign_one_target_round_trip_witness :
  exists E' : env,
    assign_variable nat stub_run "${x}" (VList []) env_foo m0 = (Ok tt, E', m0)
    /\ E' !! "x" = Some (VList [])
    /\ (forall other, other <> "x" -> E' !! other = env_foo !! other)
    /\ evaluate nat stub_run (VStr ("defined " +:+ "${x}")) E' m0
       = (Ok (true, VList []), m0).
Proof.
  apply (assign_one_target_round_trip nat stub_run "${x}" "x" (VList [])
           env_foo m0 m0 false (VList []));
    reflexivity.
Defined.

(** X10: two targets. For two target tokens without comma that Variable
    Naming accepts, the call binds the second name to the value and, when
    the names differ, the first name to the logical result as a boolean;
    every other name is left as it was. When both names are the same, the
    value is what stays bound. *)
Theorem assign_two_targets_bindings
        (World : Type) (run : string -> env -> World -> run_outcome * World)
        (t1 t2 n1 n2 : string) (X : value) (E : env) (m m1 : machine World)
        (l : bool) (v : value) :
  Py.count "," t1 = 0 -> Py.count "," t2 = 0 ->
  get_var_name t1 = Ok n1 -> get_var_name t2 = Ok n2 ->
  evaluate World run X E m = (Ok (l, v), m1) ->
  exists E' : env,
    assign_variable World run (t1 +:+ String "," t2) X E m = (Ok tt, E', m1)
    /\ E' !! n2 = Some v
    /\ (n1 <> n2 -> E' !! n1 = Some (VBool l))
    /\ (forall other, other <> n1 -> other <> n2 -> E' !! other = E !! other).
Proof.
  intros H1 H2 Hn1 Hn2 HX. exists (<[n2 := v]> (<[n1 := VBool l]> E)).
  split; [exact (assign_two run t1 t2 n1 n2 X E m l v m1 H1 H2 Hn1 Hn2 HX)|].
  split; [apply lookup_insert_eq|]. split.
  - intros Hne. rewrite lookup_insert_ne by congruence. apply lookup_insert_eq.
  - intros other Ho1 Ho2. now rewrite !lookup_insert_ne by congruence.
Qed.

(** The theorem at a failing command: the logical result and the output are
    both stored. *)
Lemma assign_two_targets_bindings_witness :
  exists E' : env,
    assign_variable nat stub_run ("$ok" +:+ String "," " $out")
      (VStr "$(false)") env_foo m0
    = (Ok tt, E', Machine 1 ["false"])
    /\ E' !! "out" = Some empty_str
    /\ ("ok" <> "out" -> E' !! "ok" = Some (VBool false))
    /\ (forall other, other <> "ok" -> other <> "out" ->
        E' !! other = env_foo !! other).
Proof.
  apply (assign_two_targets_bindings nat stub_run "$ok" " $out" "ok" "out"
           (VStr "$(false)") env_foo m0 (Machine 1 ["false"]) false empty_str);
    reflexivity.
Defined.

(** X11: a call of [assign_variable] that raises has bound nothing, and
    what it raises is the syntax error. *)
Theorem assign_failure_keeps_environment
        (World : Type) (run : string -> env -> World -> run_outcome * World)
        (variable : string) (comm : value) (E E' : env) (m m' : machine World)
        (e : exn) :
  assign_variable World run variable comm E m = (Raise e, E', m') ->
  E' = E /\ is_syntax_error e = true.
Proof. apply assign_raise_kind. Qed.

(** The theorem at two targets of which the second lacks its dollar sign. *)
Lemma assign_failure_keeps_environment_witness :
  env_foo = env_foo
  /\ is_syntax_error (YamlSyntaxError "Not a proper variable name: b") = true.
Proof.
  apply (assign_failure_keeps_environment nat stub_run "$a,b" (VStr "$foo")
           env_foo env_foo m0 m0
           (YamlSyntaxError "Not a proper variable name: b")).
  vm_compute. reflexivity.
Defined.

(** X12: with at most one comma the expression is evaluated before the
    targets are looked at: the commands run are those of the evaluation,
    also when the call then fails on a malformed target. *)
Theorem assign_evaluates_before_targets
        (World : Type) (run : string -> env -> World -> run_outcome * World)
        (variable : string) (X : value) (E : env) (m : machine World) :
  Py.count "," variable <= 1 ->
  (assign_variable World run variable X E m).2 = (evaluate World run X E m).2.
Proof. apply assign_machine. Qed.

(** The theorem at a target without dollar sign: the command has run. *)
Lemma assign_evaluates_before_targets_witness :
  (assign_variable nat stub_run "oops" (VStr "$(echo hi)") ∅ m0).2
  = Machine 1 ["echo hi"].
Proof.
  apply (assign_evaluates_before_targets nat stub_run "oops"
           (VStr "$(echo hi)") ∅ m0).
  vm_compute. lia.
Defined.

(** ** Properties of [parse_for] *)

(** X13: whatever [parse_for] returns, the header begins with [for], there
    are one or two control variables, each name has at most one character,
    and the expression has at least two characters, begins outside white
    space and holds no newline. *)
Theorem parse_for_result_shape (header : string) (cvs : list string)
        (expr : string) :
  parse_for header = Ok (cvs, expr) ->
  Py.startswith "for" header = true
  /\ (length cvs = 1 \/ length cvs = 2)
  /\ Forall (fun name => String.length name <= 1) cvs
  /\ 2 <= String.length expr
  /\ Py.outside Py.isspace (Py.first_char expr)
  /\ Py.all Re.dot expr = true.
Proof. apply HeaderShape.parse_for_shape. Qed.

(** The theorem at a header of two lines: the expression stops at the
    newline. *)
Lemma parse_for_result_shape_witness :
  Py.startswith "for" ("for ${i}, $j in $foo" +:+ String "010" "bar") = true
  /\ (length ["i"; "j"] = 1 \/ length ["i"; "j"] = 2)
  /\ Forall (fun name => String.length name <= 1) ["i"; "j"]
  /\ 2 <= String.length "$foo"
  /\ Py.outside Py.isspace (Py.first_char "$foo")
  /\ Py.all Re.dot "$foo" = true.
Proof.
  apply (parse_for_result_shape ("for ${i}, $j in $foo" +:+ String "010" "bar")
           ["i"; "j"] "$foo").
  vm_compute. reflexivity.
Defined.

(** ** Properties of [get_for_control_var_and_eval_expr] *)

(** X14: a loop with one control variable over a command substitution runs
    the command once and iterates over the words of its output, whether the
    command succeeded or failed. *)
Theorem loop_over_command_output
        (World : Type) (run : string -> env -> World -> run_outcome * World)
        (w1 w2 w3 c text : string) (b : bool) (v d : ascii)
        (E : env) (m : machine World) (out : run_outcome) (w : World) :
  Py.all Py.isspace w1 = true -> w1 <> EmptyString ->
  Py.all Py.isspace w2 = true -> w2 <> EmptyString ->
  Py.all Py.isspace w3 = true -> w3 <> EmptyString ->
  plain_char v = true ->
  Py.all Re.dot c = true -> Re.dot d = true -> Py.isspace d = false ->
  run c E (world m) = (out, w) ->
  run_output out = VStr text ->
  get_for_control_var_and_eval_expr World run
    ("for" +:+ w1 +:+ var_token b v +:+ w2 +:+ "in" +:+ w3
     +:+ "$(" +:+ c +:+ String d EmptyString) E m
  = (Ok ([String v EmptyString], map VStr (Py.split text)),
     Machine w (calls m ++ [c])).
Proof.
  intros Hw1 Hn1 Hw2 Hn2 Hw3 Hn3 Hv Hc Hd Hds Hrun Hout.
  rewrite (resolve_command run w1 b v w2 w3 c d E m text); try assumption.
  - unfold cl_n. now rewrite Hrun.
  - unfold cl_n. now rewrite Hrun.
Qed.

(** The theorem at the header of the documentation. *)
Lemma loop_over_command_output_witness :
  get_for_control_var_and_eval_expr nat stub_run
    ("for" +:+ " " +:+ "$i" +:+ " " +:+ "in" +:+ " "
     +:+ "$(" +:+ "echo foo bar" +:+ ")") ∅ m0
  = (Ok (["i"], [VStr "foo"; VStr "bar"]), Machine 1 ["echo foo bar"]).
Proof.
  assert (" " <> EmptyString) as Hsp by discriminate.
  exact (loop_over_command_output nat stub_run " " " " " " "echo foo bar"
           "foo bar" false "i" ")" ∅ m0 (Returned (VStr "foo bar")) 1
           eq_refl Hsp eq_refl Hsp eq_refl Hsp eq_refl eq_refl eq_refl eq_refl
           eq_refl eq_refl).
Defined.

(** X15: a loop with two control variables over a variable bound to a
    dictionary iterates over its items in order, unless the dictionary is
    empty: an empty dictionary is falsy, the variable then evaluates to the
    empty text, and the resolver raises the syntax error for a text. *)
Theorem loop_over_dictionary_variable
        (World : Type) (run : string -> env -> World -> run_outcome * World)
        (w1 w2 w3 w4 w5 n : string) (b1 b2 : bool) (k v : ascii)
        (d : list (value * value)) (E : env) (m : machine World) :
  Py.all Py.isspace w1 = true -> w1 <> EmptyString ->
  Py.all Py.isspace w4 = true ->
  Py.all Py.isspace w5 = true -> w5 <> EmptyString ->
  Py.all Py.isspace w2 = true -> w2 <> EmptyString ->
  Py.all Py.isspace w3 = true -> w3 <> EmptyString ->
  plain_char k = true -> plain_char v = true ->
  n <> EmptyString -> Py.all Re.dot n = true ->
  Py.startswith "(" n = false -> get_var_name (String "$" n) = Ok n ->
  E !! n = Some (VDict d) ->
  (d <> [] ->
   get_for_control_var_and_eval_expr World run
     ("for" +:+ w1 +:+ var_token b1 k +:+ w4 +:+ "," +:+ w5
      +:+ var_token b2 v +:+ w2 +:+ "in" +:+ w3 +:+ String "$" n) E m
   = (Ok ([String k EmptyString; String v EmptyString], map item d), m))
  /\ (d = [] ->
      get_for_control_var_and_eval_expr World run
        ("for" +:+ w1 +:+ var_token b1 k +:+ w4 +:+ "," +:+ w5
         +:+ var_token b2 v +:+ w2 +:+ "in" +:+ w3 +:+ String "$" n) E m
      = (Raise (YamlSyntaxError
                  "Can't expand <class 'str'> to two control variables."), m)).
Proof.
  intros. rewrite (resolve_dict run w1 b1 k w4 w5 b2 v w2 w3 n d E m);
    try assumption.
  split; [destruct d; [contradiction|reflexivity]|intros ->; reflexivity].
Qed.

(** The theorem at a dictionary of one item. *)
Lemma loop_over_dictionary_variable_witness :
  get_for_control_var_and_eval_expr nat stub_run
    ("for" +:+ " " +:+ "$k" +:+ EmptyString +:+ "," +:+ " " +:+ "$v"
     +:+ " " +:+ "in" +:+ " " +:+ "$d") env_d m0
  = (Ok (["k"; "v"], [VTuple [VStr "k"; VStr "v"]]), m0).
Proof.
  assert (" " <> EmptyString) as Hsp by discriminate.
  assert ("d" <> EmptyString) as Hd by discriminate.
  destruct (loop_over_dictionary_variable nat stub_run " " " " " " EmptyString
              " " "d" false false "k" "v" [(VStr "k", VStr "v")] env_d m0
              eq_refl Hsp eq_refl eq_refl Hsp eq_refl Hsp eq_refl Hsp
              eq_refl eq_refl Hd eq_refl eq_refl eq_refl eq_refl)
    as (Hitems & _).
  apply Hitems. discriminate.
Defined.

(** X16: every error of the resolver is one of three: [AttributeError] for
    a header that does not match, with no command run; [NameError] for the
    unbound [logger], with no command run; or the syntax error for a value
    that is no dictionary under two control variables. *)
Theorem loop_resolver_errors
        (World : Type) (run : string -> env -> World -> run_outcome * World)
        (header : string) (E : env) (m m' : machine World) (e : exn) :
  get_for_control_var_and_eval_expr World run header E m = (Raise e, m') ->
  (e = AttributeError "'NoneType' object has no attribute 'groups'" /\ m' = m)
  \/ (e = NameError "name 'logger' is not defined" /\ m' = m)
  \/ (exists v, e = YamlSyntaxError ("Can't expand " +:+ type_repr v
                                     +:+ " to two control variables.")).
Proof. apply resolve_raise. Qed.

(** The theorem at two control variables over the output of a command. *)
Lemma loop_resolver_errors_witness :
  (YamlSyntaxError "Can't expand <class 'str'> to two control variables."
   = AttributeError "'NoneType' object has no attribute 'groups'"
   /\ Machine 1 ["echo hi"] = m0)
  \/ (YamlSyntaxError "Can't expand <class 'str'> to two control variables."
      = NameError "name 'logger' is not defined"
      /\ Machine 1 ["echo hi"] = m0)
  \/ (exists v,
        YamlSyntaxError "Can't expand <class 'str'> to two control variables."
        = YamlSyntaxError ("Can't expand " +:+ type_repr v
                           +:+ " to two control variables.")).
Proof.
  apply (loop_resolver_errors nat stub_run "for $k, $v in $(echo hi)" ∅ m0
           (Machine 1 ["echo hi"])
           (YamlSyntaxError
              "Can't expand <class 'str'> to two control variables.")).
  vm_compute. reflexivity.
Defined.

(** ** Properties of [get_section_from_condition] *)

(** X17: an if-section whose condition is a variable token: the branch is
    0 exactly when the name Variable Naming gives the token is bound to a
    truthy value; the skip flag tells whether the next section is an else;
    no command is run. *)
Theorem condition_on_variable_token
        (World : Type) (run : string -> env -> World -> run_outcome * World)
        (Body : Type) (t name : string) (body : Body)
        (next : option (string * Body)) (E : env) (m : machine World) :
  Py.startswith "$" (Py.strip t)
  || Py.startswith (String dquote "$") (Py.strip t) = true ->
  Py.startswith "$(" (Py.strip t) = false ->
  get_var_name t = Ok name ->
  get_section_from_condition World run ("if" +:+ t, body) next E m
  = (Ok (match next with
         | Some (keyword, else_body) =>
             if (var_result (E !! name)).1
             then (0, String.eqb keyword "else", Some body)
             else if String.eqb keyword "else" then (1, true, Some else_body)
                  else (1, false, None)
         | None =>
             if (var_result (E !! name)).1 then (0, false, Some body)
             else (1, false, None)
         end), m).
Proof. apply condition_token. Qed.

(** The theorem at a bound variable, with a next section that is no else. *)
Lemma condition_on_variable_token_witness :
  get_section_from_condition nat stub_run ("if" +:+ " ${foo}", 10)
    (Some ("for $i in $foo", 20)) env_foo m0
  = (Ok (0, false, Some 10), m0).
Proof.
  apply (condition_on_variable_token nat stub_run nat " ${foo}" "foo" 10
           (Some ("for $i in $foo", 20)) env_foo m0);
    reflexivity.
Defined.

(** X18: the condition resolver raises exactly the error of the evaluation
    of its condition, which is the syntax error, and then no command has
    been run. *)
Theorem condition_raises_what_evaluate_raises
        (World : Type) (run : string -> env -> World -> run_outcome * World)
        (Body : Type) (if_section : string * Body)
        (next : option (string * Body)) (E : env) (m m' : machine World)
        (e : exn) :
  get_section_from_condition World run if_section next E m = (Raise e, m') ->
  is_syntax_error e = true /\ m' = m
  /\ evaluate World run (VStr (Py.strip (Py.slice_from 2 if_section.1))) E m
     = (Raise e, m).
Proof. apply condition_raise. Qed.

(** The theorem at a condition that no rule accepts. *)
Lemma condition_raises_what_evaluate_raises_witness :
  is_syntax_error (YamlSyntaxError "Not a valid expression: foo") = true
  /\ m0 = m0
  /\ evaluate nat stub_run (VStr (Py.strip (Py.slice_from 2 "if foo"))) ∅ m0
     = (Raise (YamlSyntaxError "Not a valid expression: foo"), m0).
Proof.
  apply (condition_raises_what_evaluate_raises nat stub_run nat ("if foo", 10)
           None ∅ m0 m0 (YamlSyntaxError "Not a valid expression: foo")).
  reflexivity.
Defined.

(** ** What the loop operations do on the headers they accept *)

(** X19: for one-character control variables [k], [v] that are neither
    white space, quotes nor braces, each written [$v] or [${v}], for
    non-empty runs of white space between the words (the run before the
    comma may be empty), and for every expression text [e] of at least two
    characters that begins outside white space and holds no newline,
    [parse_for] accepts [for $v in e] and [for $k, $v in e] and returns the
    names and [e] verbatim; in particular the three headers of its
    documentation give (['i'], '$foo'), (['k', 'v'], '$foo') and
    (['i'], '$(ls $foo)'). *)
Theorem parse_for_accepted_forms
        (w1 w2 w3 w4 w5 : string) (b1 b2 : bool) (k v : ascii) (e : string) :
  Py.all Py.isspace w1 = true -> w1 <> EmptyString ->
  Py.all Py.isspace w2 = true -> w2 <> EmptyString ->
  Py.all Py.isspace w3 = true -> w3 <> EmptyString ->
  Py.all Py.isspace w4 = true ->
  Py.all Py.isspace w5 = true -> w5 <> EmptyString ->
  plain_char k = true -> plain_char v = true ->
  Py.outside Py.isspace (Py.first_char e) ->
  Py.all Re.dot e = true -> 2 <= String.length e ->
  parse_for ("for" +:+ w1 +:+ var_token b2 v +:+ w2 +:+ "in" +:+ w3 +:+ e)
  = Ok ([String v EmptyString], e)
  /\ parse_for ("for" +:+ w1 +:+ var_token b1 k +:+ w4 +:+ "," +:+ w5
                +:+ var_token b2 v +:+ w2 +:+ "in" +:+ w3 +:+ e)
     = Ok ([String k EmptyString; String v EmptyString], e)
  /\ parse_for "for $i in $foo" = Ok (["i"], "$foo")
  /\ parse_for "for $k, $v in $foo" = Ok (["k"; "v"], "$foo")
  /\ parse_for "for ${i} in $(ls $foo)" = Ok (["i"], "$(ls $foo)").
Proof.
  intros. split; [|split].
  - now apply ForHeader.parse_for_one_variable.
  - now apply ForHeader.parse_for_two_variables.
  - repeat split; vm_compute; reflexivity.
Qed.

(** The theorem at the headers [for ${v} in $(ls $foo)] and
    [for $k , ${v} in $(ls $foo)], with a tabulation before [in]. *)
Lemma parse_for_accepted_forms_witness :
  parse_for ("for" +:+ " " +:+ "${v}" +:+ String "009" EmptyString +:+ "in"
             +:+ " " +:+ "$(ls $foo)")
  = Ok (["v"], "$(ls $foo)")
  /\ parse_for ("for" +:+ " " +:+ "$k" +:+ " " +:+ "," +:+ " " +:+ "${v}"
                +:+ String "009" EmptyString +:+ "in" +:+ " " +:+ "$(ls $foo)")
     = Ok (["k"; "v"], "$(ls $foo)").
Proof.
  assert (2 <= String.length "$(ls $foo)") as Hlen by (vm_compute; lia).
  assert (String "009" EmptyString <> EmptyString) as Htab by discriminate.
  assert (" " <> EmptyString) as Hsp by discriminate.
  destruct (parse_for_accepted_forms " " (String "009" EmptyString) " " " " " "
              false true "k" "v" "$(ls $foo)"
              eq_refl Hsp eq_refl Htab eq_refl Hsp eq_refl eq_refl Hsp
              eq_refl eq_refl eq_refl eq_refl Hlen) as (Hone & Htwo & _).
  split; [exact Hone|exact Htwo].
Defined.

(** X20: once the header is parsed and its expression evaluated to a value
    [v] (the logical result plays no part), the resolver shapes [v] by the
    number of control variables. With two: a dictionary gives the tuples
    (key, value) of its items in order, anything else is a syntax error
    that names the type of [v]. With one: a text gives its tokens in order,
    anything else gives no item and no error. The machine is the one the
    evaluation left. *)
Theorem loop_iterable_by_shape
        (World : Type) (run : string -> env -> World -> run_outcome * World)
        (header : string) (E : env) (m m' : machine World)
        (cvs : list string) (expr : string) (l : bool) (v : value) :
  parse_for header = Ok (cvs, expr) ->
  evaluate World run (VStr expr) E m = (Ok (l, v), m') ->
  let r := get_for_control_var_and_eval_expr World run header E m in
  let cannot (type : string) : res (list string * list value) :=
    Raise (YamlSyntaxError
             ("Can't expand " +:+ type +:+ " to two control variables.")) in
  (length cvs = 1 \/ length cvs = 2)
  /\ (length cvs = 2 -> forall d, v = VDict d ->
      r = (Ok (cvs, map (fun kv => VTuple [kv.1; kv.2]) d), m'))
  /\ (length cvs = 2 ->
      (v = VNone -> r = (cannot "<class 'NoneType'>", m'))
      /\ (forall b, v = VBool b -> r = (cannot "<class 'bool'>", m'))
      /\ (forall z, v = VInt z -> r = (cannot "<class 'int'>", m'))
      /\ (forall text, v = VStr text -> r = (cannot "<class 'str'>", m'))
      /\ (forall items, v = VList items -> r = (cannot "<class 'list'>", m'))
      /\ (forall items, v = VTuple items ->
          r = (cannot "<class 'tuple'>", m')))
  /\ (length cvs = 1 -> forall text, v = VStr text ->
      r = (Ok (cvs, map VStr (Py.split text)), m'))
  /\ (length cvs = 1 -> (forall text, v <> VStr text) ->
      r = (Ok (cvs, []), m')).
Proof.
  intros Hp He r cannot. subst r cannot.
  unfold get_for_control_var_and_eval_expr.
  rewrite Hp, He. split; [exact (parse_for_arity _ _ _ Hp)|].
  split; [intros -> d ->; reflexivity|].
  split; [intros ->; repeat split; intros; subst v; reflexivity|].
  split; [intros -> text ->; reflexivity|].
  intros -> Hv. destruct v; try reflexivity. now destruct (Hv s).
Qed.

(** The theorem at one variable over the output of a command, at two
    variables over a dictionary, and at two variables over a text. *)
Lemma loop_iterable_by_shape_witness :
  get_for_control_var_and_eval_expr nat stub_run
    "for $i in $(echo foo bar)" ∅ m0
  = (Ok (["i"], [VStr "foo"; VStr "bar"]), Machine 1 ["echo foo bar"])
  /\ get_for_control_var_and_eval_expr nat stub_run
       "for $k, $v in $d" env_d m0
     = (Ok (["k"; "v"], [VTuple [VStr "k"; VStr "v"]]), m0)
  /\ get_for_control_var_and_eval_expr nat stub_run
       "for $k, $v in $foo" env_foo m0
     = (Raise (YamlSyntaxError
                 "Can't expand <class 'str'> to two control variables."), m0).
Proof.
  split; [|split].
  - destruct (loop_iterable_by_shape nat stub_run "for $i in $(echo foo bar)"
                ∅ m0 (Machine 1 ["echo foo bar"]) ["i"] "$(echo foo bar)" true
                (VStr "foo bar") eq_refl eq_refl) as (_ & _ & _ & Htext & _).
    exact (Htext eq_refl "foo bar" eq_refl).
  - destruct (loop_iterable_by_shape nat stub_run "for $k, $v in $d"
                env_d m0 m0 ["k"; "v"] "$d" true
                (VDict [(VStr "k", VStr "v")]) eq_refl eq_refl)
      as (_ & Hitems & _).
    exact (Hitems eq_refl [(VStr "k", VStr "v")] eq_refl).
  - destruct (loop_iterable_by_shape nat stub_run "for $k, $v in $foo"
                env_foo m0 m0 ["k"; "v"] "$foo" true
                (VStr "bar baz") eq_refl eq_refl)
      as (_ & _ & Herror & _).
    destruct (Herror eq_refl) as (_ & _ & _ & Hstr & _).
    exact (Hstr "bar baz" eq_refl).
Defined.
